(** * Sentinel Integrity Layer: the audit engine and the dashboard's scan driver

    A shallow embedding of [runIntegrityScan] (the Sentinel engine module,
    with its mock fixtures) and of the dashboard page (pages/Sentinel.tsx):
    [executeScan], the values the page derives for display, and the page
    over a sequence of clicks and settlements.

    JavaScript numbers are IEEE-754 binary64 values: trust ratings and the
    health score are modelled by Rocq's primitive [float], whose operations
    are the binary64 ones.  Counters that only ever hold small non-negative
    integers ([criticalAssetCount], array lengths) are [nat]; epoch
    milliseconds are [Z]. *)

From Stdlib Require Import ZArith NArith List String Ascii Bool Floats Lia.
From Stdlib Require Import DecimalString Permutation.
Import ListNotations.

(** A decimal literal denotes the binary64 value nearest to it, in Rocq as
    in JavaScript. *)
#[local] Set Warnings "-inexact-float".

Local Open Scope string_scope.
Local Open Scope list_scope.

(** ** Data model *)

Inductive StatusCode := ERROR | TASK_COMMENCED | COMPLETED | IDLE.
Inductive Role := AGENT | PILOT | COMMAND.
Inductive ViolationType := TRUST_VIOLATION | DATA_INTEGRITY | PROTOCOL_BREACH.
Inductive Severity := CRITICAL | WARNING | NOTICE.

(** The values a payload entry may hold ([Record<string, any>]). *)
Inductive JsValue :=
| JsNumber (x : float)
| JsString (s : string)
| JsBool (b : bool)
| JsNull.

(** A plain object used as a map: its own keys in insertion order. *)
Definition JsObject := list (string * JsValue).

Definition Object_keys (o : JsObject) : list string := map fst o.

Record Location := {
  latitude : float;
  longitude : float;
  zoneId : option string
}.

(** [dataPayload] is typed as a record, yet the engine guards against a
    missing one ([!event.dataPayload]): [None] is the absent payload. *)
Record AssetEvent := {
  assetUuid : string;
  originKey : string;
  location : Location;
  eventTimestamp : Z;
  statusCode : StatusCode;
  dataPayload : option JsObject
}.

(** [currentTaskId : string | null]: [None] is [null]. *)
Record OperatorStatus := {
  operatorId : string;
  trustRating : float;
  currentTaskId : option string;
  lastKnownLocation : Location;
  role : Role
}.

Record Violation := {
  id : string;
  type : ViolationType;
  description : string;
  severity : Severity;
  protocolRef : string
}.

Record IntegrityReport := {
  timestamp : Z;
  systemHealthScore : float;
  criticalAssetCount : nat;
  violations : list Violation;
  scanDurationMs : Z
}.

Definition StatusCode_eqb (a b : StatusCode) : bool :=
  match a, b with
  | ERROR, ERROR | TASK_COMMENCED, TASK_COMMENCED
  | COMPLETED, COMPLETED | IDLE, IDLE => true
  | _, _ => false
  end.

Definition Severity_eqb (a b : Severity) : bool :=
  match a, b with
  | CRITICAL, CRITICAL | WARNING, WARNING | NOTICE, NOTICE => true
  | _, _ => false
  end.

(** ** Host operations on numbers *)

(** The number for an integer: the binary64 value nearest to it, ties to
    even.  Array lengths and the integers [Math.round] yields are below
    2^53 and are represented exactly. *)
Definition Number_of_Z (n : Z) : float :=
  SF2Prim (binary_normalize prec emax n 0 false).

Definition Number_of_nat (n : nat) : float := Number_of_Z (Z.of_nat n).

Definition is_neg_zero (x : float) : bool :=
  PrimFloat.is_zero x && PrimFloat.get_sign x.

(** [Math.max] of two numbers: NaN if either is NaN, and [+0] is larger
    than [-0]. *)
Definition Math_max (x y : float) : float :=
  if PrimFloat.is_nan x || PrimFloat.is_nan y then PrimFloat.nan
  else if (x <? y)%float then y
  else if (y <? x)%float then x
  else if is_neg_zero x then y else x.

(** [Math.round]: the closest integral number, a tie going towards
    +infinity; NaN, the infinities and the zeros are returned as they are,
    and a negative number that rounds to zero gives [-0]. *)
Definition Math_round (x : float) : float :=
  match Prim2SF x with
  | S754_finite s m e =>
      if (0 <=? e)%Z then x
      else
        let twice := if s then (- Zpos m~0)%Z else Zpos m~0 in
        let n := ((twice + 2 ^ (- e)) / 2 ^ (1 - e))%Z in
        if (n =? 0)%Z then (if s then PrimFloat.neg_zero else PrimFloat.zero)
        else Number_of_Z n
  | _ => x
  end.

(** ** Orderings on decoded binary64 values

    [atLeast n x]: [x] is +infinity or a positive finite number [m * 2^e]
    with [n <= m * 2^e] (stated over the integers); [nonPositive x]: [x] is
    a zero, a negative finite number or -infinity. *)
Definition atLeast (n : Z) (x : spec_float) : Prop :=
  match x with
  | S754_infinity false => True
  | S754_finite false m e =>
      (n * 2 ^ Z.max 0 (- e) <= Zpos m * 2 ^ Z.max 0 e)%Z
  | _ => False
  end.

Definition nonPositive (x : spec_float) : Prop :=
  match x with
  | S754_zero _ | S754_finite true _ _ | S754_infinity true => True
  | _ => False
  end.

(** How a promise settles. *)
Inductive Settled (A : Type) :=
| Fulfilled (value : A)
| Rejected (reason : string).
Arguments Fulfilled {A} value.
Arguments Rejected {A} reason.

Section Engine.

(** [Number::toString], the shortest round-trip rendering of a number.  It
    is reached from [toFixed] for NaN, the infinities and magnitudes from
    1e21 on only. *)
Variable Number_toString : float -> string.

Definition pad2 (digits : string) : string :=
  match String.length digits with
  | 0 => "000"
  | 1 => ("00" ++ digits)%string
  | 2 => ("0" ++ digits)%string
  | _ => digits
  end.

(** [x.toFixed(2)] (Number.prototype.toFixed with two fraction digits). *)
Definition toFixed2 (x : float) : string :=
  match Prim2SF x with
  | S754_nan | S754_infinity _ => Number_toString x
  | S754_zero _ => "0.00"
  | S754_finite s m e =>
      let big :=
        if (0 <=? e)%Z then (10 ^ 21 <=? Zpos m * 2 ^ e)%Z
        else (10 ^ 21 * 2 ^ (- e) <=? Zpos m)%Z in
      let body :=
        if big then Number_toString (PrimFloat.abs x)
        else
          let n :=
            if (0 <=? e)%Z then (100 * Zpos m * 2 ^ e)%Z
            else ((200 * Zpos m + 2 ^ (- e)) / 2 ^ (1 - e))%Z in
          let d := pad2 (NilZero.string_of_uint (N.to_uint (Z.to_N n))) in
          let k := String.length d in
          (substring 0 (k - 2) d ++ "." ++ substring (k - 2) 2 d)%string in
      if s then ("-" ++ body)%string else body
  end.

(** ** The scan *)

(** What the body of [runIntegrityScan] can reach: its two arguments, the
    local [violations] array and the local counter. *)
Record ScanState := {
  allEvents : list AssetEvent;
  allStatuses : list OperatorStatus;
  found : list Violation;
  criticalCount : nat
}.

(** [violations.push(v)] *)
Definition push (v : Violation) (st : ScanState) : ScanState :=
  {| allEvents := allEvents st;
     allStatuses := allStatuses st;
     found := found st ++ [v];
     criticalCount := criticalCount st |}.

(** [criticalAssetCount++] *)
Definition incrCritical (st : ScanState) : ScanState :=
  {| allEvents := allEvents st;
     allStatuses := allStatuses st;
     found := found st;
     criticalCount := S (criticalCount st) |}.

(** [Array.prototype.forEach]: the length is read once, then each index
    below it is looked up in the array as it is at that moment. *)
Fixpoint forEachFrom {A : Type} (arr : ScanState -> list A)
    (callback : A -> ScanState -> ScanState)
    (k steps : nat) (st : ScanState) : ScanState :=
  match steps with
  | O => st
  | S steps' =>
      let st' :=
        match nth_error (arr st) k with
        | Some x => callback x st
        | None => st
        end in
      forEachFrom arr callback (S k) steps' st'
  end.

Definition forEach {A : Type} (arr : ScanState -> list A)
    (callback : A -> ScanState -> ScanState) (st : ScanState) : ScanState :=
  forEachFrom arr callback 0 (List.length (arr st)) st.

(** [!event.dataPayload || Object.keys(event.dataPayload).length === 0] *)
Definition payloadMissing (event : AssetEvent) : bool :=
  match dataPayload event with
  | None => true
  | Some o => Nat.eqb (List.length (Object_keys o)) 0
  end.

Definition assetViolation (event : AssetEvent) : Violation :=
  {| id := assetUuid event;
     type := DATA_INTEGRITY;
     description := "Asset reported ERROR status without required audit payload.";
     severity := CRITICAL;
     protocolRef := "CCP-3.1" |}.

(** Pass A, the callback of [allEvents.forEach]. *)
Definition assetCallback (event : AssetEvent) (st : ScanState) : ScanState :=
  if StatusCode_eqb (statusCode event) ERROR then
    let st1 := incrCritical st in
    if payloadMissing event then push (assetViolation event) st1 else st1
  else st.

Definition trustViolation (status : OperatorStatus) : Violation :=
  {| id := operatorId status;
     type := TRUST_VIOLATION;
     description :=
       ("Sub-baseline Operator (" ++ toFixed2 (trustRating status)
          ++ ") actively assigned to task.")%string;
     severity := CRITICAL;
     protocolRef := "CCP-4.1" |}.

Definition protocolBreach (status : OperatorStatus) : Violation :=
  {| id := operatorId status;
     type := PROTOCOL_BREACH;
     description :=
       "Operator trust unstable; requires immediate Skill Verification pathway.";
     severity := WARNING;
     protocolRef := "CCP-4.2" |}.

Definition isNull {A : Type} (x : option A) : bool :=
  match x with None => true | Some _ => false end.

(** Pass B, the callback of [allStatuses.forEach]. *)
Definition operatorCallback (status : OperatorStatus) (st : ScanState)
    : ScanState :=
  if (trustRating status <? 0.6)%float && negb (isNull (currentTaskId status))
  then push (trustViolation status) st
  else if (trustRating status <? 0.8)%float && isNull (currentTaskId status)
  then push (protocolBreach status) st
  else st.

(** Step C: [Math.max(0.0, 1.0 - penalty)] with
    [penalty = (number of CRITICAL violations) * 0.1]. *)
Definition criticalViolations (vs : list Violation) : list Violation :=
  filter (fun v => Severity_eqb (severity v) CRITICAL) vs.

Definition healthScore (criticals : nat) : float :=
  let penalty := (Number_of_nat criticals * 0.1)%float in
  Math_max 0.0 (1.0 - penalty).

(** [Math.round(systemHealthScore * 100) / 100] *)
Definition roundedScore (score : float) : float :=
  (Math_round (score * 100) / 100)%float.

(** [Date.now()]: the clock is the sequence of its successive readings. *)
Definition Clock := nat -> Z.

Definition Date_now (clock : Clock) : Z * Clock :=
  (clock 0%nat, fun k => clock (S k)).

(** The body of [runIntegrityScan], on the store: the report it builds, the
    store it leaves and the clock after its three readings. *)
Definition integrityScan (clock : Clock) (st0 : ScanState)
    : IntegrityReport * ScanState * Clock :=
  let '(startTime, clock1) := Date_now clock in
  let st1 := forEach allEvents assetCallback st0 in
  let st2 := forEach allStatuses operatorCallback st1 in
  let score := healthScore (List.length (criticalViolations (found st2))) in
  let '(endTime, clock2) := Date_now clock1 in
  let scanDuration := (endTime - startTime)%Z in
  let '(stamp, clock3) := Date_now clock2 in
  ({| timestamp := stamp;
      systemHealthScore := roundedScore score;
      criticalAssetCount := criticalCount st2;
      violations := found st2;
      scanDurationMs := scanDuration |}, st2, clock3).

(** The store at entry: the two arguments, [violations = []] and
    [criticalAssetCount = 0]. *)
Definition entryState (events : list AssetEvent)
    (statuses : list OperatorStatus) : ScanState :=
  {| allEvents := events; allStatuses := statuses;
     found := []; criticalCount := 0 |}.

(** [runIntegrityScan]: an async function whose body has no suspension
    point and raises nothing, so its promise is fulfilled with the report. *)
Definition runIntegrityScan (clock : Clock) (events : list AssetEvent)
    (statuses : list OperatorStatus) : Settled IntegrityReport :=
  Fulfilled (fst (fst (integrityScan clock (entryState events statuses)))).

(** ** Mock fixtures; [loaded] is the clock when the module is loaded, read
    once for each event's [timestamp]. *)
Definition MOCK_ASSET_EVENTS (loaded : Clock) : list AssetEvent :=
  [ {| assetUuid := "ASSET-101"; originKey := "SCAN-A";
       location := {| latitude := 34.0; longitude := -118.0; zoneId := Some "Z1" |};
       eventTimestamp := loaded 0%nat; statusCode := TASK_COMMENCED;
       dataPayload := Some [("taskStep", JsNumber 2)] |};
    {| assetUuid := "ASSET-202"; originKey := "SCAN-B";
       location := {| latitude := 34.1; longitude := -118.1; zoneId := Some "Z2" |};
       eventTimestamp := loaded 1%nat; statusCode := ERROR;
       dataPayload := Some [] |} ].

Definition MOCK_OPERATOR_STATUSES : list OperatorStatus :=
  [ {| operatorId := "OP-JANE"; trustRating := 0.95; currentTaskId := Some "T-456";
       lastKnownLocation := {| latitude := 34.05; longitude := -118.05; zoneId := None |};
       role := PILOT |};
    {| operatorId := "OP-JOE"; trustRating := 0.58; currentTaskId := Some "T-789";
       lastKnownLocation := {| latitude := 34.15; longitude := -118.15; zoneId := None |};
       role := AGENT |};
    {| operatorId := "OP-KORE"; trustRating := 0.72; currentTaskId := None;
       lastKnownLocation := {| latitude := 34.20; longitude := -118.20; zoneId := None |};
       role := AGENT |} ].

(** ** Further sample inputs *)

Definition auditedError : AssetEvent :=
  {| assetUuid := "ASSET-303"; originKey := "SCAN-C";
     location := {| latitude := 34.5; longitude := -118.5; zoneId := Some "Z3" |};
     eventTimestamp := 0; statusCode := ERROR;
     dataPayload := Some [("faultCode", JsString "E42")] |}.

Definition unauditedError : AssetEvent :=
  {| assetUuid := "ASSET-404"; originKey := "SCAN-D";
     location := {| latitude := 34.5; longitude := -118.5; zoneId := Some "Z4" |};
     eventTimestamp := 0; statusCode := ERROR;
     dataPayload := None |}.

Definition idleLowTrust : OperatorStatus :=
  {| operatorId := "OP-IDLE"; trustRating := 0.5; currentTaskId := None;
     lastKnownLocation := {| latitude := 34.5; longitude := -118.5; zoneId := None |};
     role := AGENT |}.

(** ** The dashboard page (pages/Sentinel.tsx) *)

(** What the page does, in the order it does it. *)
Inductive PageAction :=
| SetIsScanning (flag : bool)
| InvokeEngine
| SetReport (r : IntegrityReport)
| ConsoleError (label reason : string).

(** The component's two state cells ([report], [isScanning]), the console,
    the clock, and the log of the actions taken so far. *)
Record Dashboard := {
  report : option IntegrityReport;
  isScanning : bool;
  console : list (string * string);
  pageClock : Clock;
  actions : list PageAction
}.

(** [useState(null)] and [useState(false)] *)
Definition mountedDashboard (clock : Clock) : Dashboard :=
  {| report := None; isScanning := false; console := [];
     pageClock := clock; actions := [] |}.

Definition setIsScanning (flag : bool) (d : Dashboard) : Dashboard :=
  {| report := report d; isScanning := flag; console := console d;
     pageClock := pageClock d;
     actions := actions d ++ [SetIsScanning flag] |}.

Definition setReport (r : IntegrityReport) (d : Dashboard) : Dashboard :=
  {| report := Some r; isScanning := isScanning d; console := console d;
     pageClock := pageClock d;
     actions := actions d ++ [SetReport r] |}.

Definition console_error (label reason : string) (d : Dashboard) : Dashboard :=
  {| report := report d; isScanning := isScanning d;
     console := console d ++ [(label, reason)];
     pageClock := pageClock d;
     actions := actions d ++ [ConsoleError label reason] |}.

(** An engine as the page sees it: called at some time, it settles. *)
Definition ScanEngine := Clock -> Settled IntegrityReport * Clock.

(** [await engine(...)] *)
Definition awaitEngine (engine : ScanEngine) (d : Dashboard)
    : Settled IntegrityReport * Dashboard :=
  let '(outcome, clock') := engine (pageClock d) in
  (outcome,
   {| report := report d; isScanning := isScanning d; console := console d;
      pageClock := clock';
      actions := actions d ++ [InvokeEngine] |}).

(** The body of [executeScan], for any engine: [try]/[catch]/[finally]
    around the awaited call. *)
Definition executeScanWith (engine : ScanEngine) (d : Dashboard) : Dashboard :=
  let d1 := setIsScanning true d in
  let '(outcome, d2) := awaitEngine engine d1 in
  let d3 :=
    match outcome with
    | Fulfilled scanReport => setReport scanReport d2
    | Rejected error => console_error "Scan failed:" error d2
    end in
  setIsScanning false d3.



(** ** Notions the statements below use *)

(** The report of a fulfilled scan, and its parts. *)
Definition violationsOf (p : Settled IntegrityReport) : list Violation :=
  match p with Fulfilled r => violations r | Rejected _ => [] end.

(** What identifies a violation besides its text. *)
Definition signature (v : Violation)
    : string * ViolationType * Severity * string :=
  (id v, type v, severity v, protocolRef v).

Definition isError (event : AssetEvent) : bool :=
  StatusCode_eqb (statusCode event) ERROR.

(** The payload is absent or has zero entries. *)
Definition payloadAbsentOrEmpty (event : AssetEvent) : bool :=
  match dataPayload event with
  | None | Some [] => true
  | Some (_ :: _) => false
  end.

(** The operator rule as two ordered branches. *)
Definition operatorRule (status : OperatorStatus)
    : option (ViolationType * Severity * string) :=
  if (trustRating status <? 0.6)%float && negb (isNull (currentTaskId status))
  then Some (TRUST_VIOLATION, CRITICAL, "CCP-4.1")
  else if (trustRating status <? 0.8)%float && isNull (currentTaskId status)
  then Some (PROTOCOL_BREACH, WARNING, "CCP-4.2")
  else None.

Definition operatorSignatures (status : OperatorStatus)
    : list (string * ViolationType * Severity * string) :=
  match operatorRule status with
  | Some (t, sev, ref) => [(operatorId status, t, sev, ref)]
  | None => []
  end.

(** What one asset event and one operator status add to [violations]. *)
Definition assetFindings (event : AssetEvent) : list Violation :=
  if isError event && payloadMissing event then [assetViolation event] else [].

Definition operatorFindings (status : OperatorStatus) : list Violation :=
  if (trustRating status <? 0.6)%float && negb (isNull (currentTaskId status))
  then [trustViolation status]
  else if (trustRating status <? 0.8)%float && isNull (currentTaskId status)
  then [protocolBreach status]
  else [].

(** The number written with two decimals as [hundredths / 100]: the
    binary64 value nearest to that quotient. *)
Definition twoDecimals (hundredths : Z) : float :=
  (Number_of_Z hundredths / 100)%float.

(** max(0, 1 - 0.1 c) over the rationals, in hundredths: it has at most one
    decimal, so rounding it to two decimals leaves it as it is. *)
Definition expectedHundredths (criticals : nat) : Z :=
  Z.max 0 (100 - 10 * Z.of_nat criticals).

Definition criticalTotal (r : IntegrityReport) : nat :=
  List.length (criticalViolations (violations r)).

(** The number of violations of a list whose severity is CRITICAL, counted
    one violation at a time. *)
Fixpoint countCritical (vs : list Violation) : nat :=
  match vs with
  | [] => 0
  | v :: rest =>
      match severity v with
      | CRITICAL => S (countCritical rest)
      | WARNING | NOTICE => countCritical rest
      end
  end.

Definition allowedCombination (v : Violation) : Prop :=
  (type v, severity v, protocolRef v) = (DATA_INTEGRITY, CRITICAL, "CCP-3.1")
  \/ (type v, severity v, protocolRef v) = (TRUST_VIOLATION, CRITICAL, "CCP-4.1")
  \/ (type v, severity v, protocolRef v) = (PROTOCOL_BREACH, WARNING, "CCP-4.2").

(** ** The dashboard's rendering (pages/Sentinel.tsx)

    The view holds what the JSX computes from the state: the values it
    interpolates, the variants and icons it selects and the branch it
    takes; static copy and styling are left out. *)

(** [Date.prototype.toLocaleString] of the host, on epoch milliseconds. *)
Variable Date_toLocaleString : Z -> string.

(** [x.toFixed(0)] *)
Definition toFixed0 (x : float) : string :=
  match Prim2SF x with
  | S754_nan | S754_infinity _ => Number_toString x
  | S754_zero _ => "0"
  | S754_finite s m e =>
      let big :=
        if (0 <=? e)%Z then (10 ^ 21 <=? Zpos m * 2 ^ e)%Z
        else (10 ^ 21 * 2 ^ (- e) <=? Zpos m)%Z in
      let body :=
        if big then Number_toString (PrimFloat.abs x)
        else
          let n :=
            if (0 <=? e)%Z then (Zpos m * 2 ^ e)%Z
            else ((2 * Zpos m + 2 ^ (- e)) / 2 ^ (1 - e))%Z in
          NilZero.string_of_uint (N.to_uint (Z.to_N n)) in
      if s then ("-" ++ body)%string else body
  end.

Definition getHealthColor (score : float) : string :=
  if (0.8 <=? score)%float then "text-green-500"
  else if (0.6 <=? score)%float then "text-yellow-500"
  else "text-red-500".

(** The [default] branches of the two [switch]es below answer values
    outside the union types, which the types here exclude. *)
Definition getSeverityVariant (s : Severity) : string :=
  match s with
  | CRITICAL => "destructive"
  | WARNING => "secondary"
  | NOTICE => "outline"
  end.

Inductive Icon := Shield | Cpu | AlertCircle | AlertTriangle | CheckCircle | ClockIcon.

Definition getViolationIcon (t : ViolationType) : Icon :=
  match t with
  | TRUST_VIOLATION => Shield
  | DATA_INTEGRITY => Cpu
  | PROTOCOL_BREACH => AlertCircle
  end.

(** The strings the values of the two union types are at run time. *)
Definition ViolationType_name (t : ViolationType) : string :=
  match t with
  | TRUST_VIOLATION => "TRUST_VIOLATION"
  | DATA_INTEGRITY => "DATA_INTEGRITY"
  | PROTOCOL_BREACH => "PROTOCOL_BREACH"
  end.

Definition Severity_name (s : Severity) : string :=
  match s with
  | CRITICAL => "CRITICAL"
  | WARNING => "WARNING"
  | NOTICE => "NOTICE"
  end.

(** [s.replace(pattern, replacement)] with a string pattern: the first
    occurrence only (the replacement holds no [$] here). *)
Definition String_replace (pattern replacement s : string) : string :=
  match String.index 0 pattern s with
  | Some i =>
      (substring 0 i s ++ replacement
       ++ substring (i + String.length pattern)
            (String.length s - (i + String.length pattern)) s)%string
  | None => s
  end.

Record Badge := { variant : string; badgeText : string }.

Record ViolationRow := {
  rowKey : string;
  rowIcon : Icon;
  rowTitle : string;
  rowBadge : Badge;
  rowText : string;
  rowProtocol : string;
  rowType : string
}.

Definition violationRow (v : Violation) : ViolationRow :=
  {| rowKey := id v;
     rowIcon := getViolationIcon (type v);
     rowTitle := id v;
     rowBadge := {| variant := getSeverityVariant (severity v);
                    badgeText := Severity_name (severity v) |};
     rowText := description v;
     rowProtocol := ("Protocol: " ++ protocolRef v)%string;
     rowType :=
       ("Type: " ++ String_replace "_" " " (ViolationType_name (type v)))%string |}.

(** [violations.some(v => v.protocolRef === ref)] *)
Definition someWithProtocol (ref : string) (vs : list Violation) : bool :=
  existsb (fun v => String.eqb (protocolRef v) ref) vs.

(** One line of the protocol-status card. *)
Definition protocolBadge (ref violatedVariant violatedText : string)
    (vs : list Violation) : string * Badge :=
  (ref,
   {| variant := if someWithProtocol ref vs then violatedVariant else "outline";
      badgeText := if someWithProtocol ref vs then violatedText else "COMPLIANT" |}).

Inductive ViolationsArea :=
| CompliantNotice
| ViolationRows (rows : list ViolationRow).

Record ReportView := {
  healthColor : string;
  healthPercent : string;
  criticalAssets : nat;
  totalViolations : nat;
  violationsArea : ViolationsArea;
  scanTime : string;
  scanMs : Z;
  criticalViolationCount : nat;
  protocolStatus : list (string * Badge)
}.

Definition renderReport (r : IntegrityReport) : ReportView :=
  {| healthColor := getHealthColor (systemHealthScore r);
     healthPercent := (toFixed0 (systemHealthScore r * 100) ++ "%")%string;
     criticalAssets := criticalAssetCount r;
     totalViolations := List.length (violations r);
     violationsArea :=
       if Nat.eqb (List.length (violations r)) 0 then CompliantNotice
       else ViolationRows (map violationRow (violations r));
     scanTime := Date_toLocaleString (timestamp r);
     scanMs := scanDurationMs r;
     criticalViolationCount :=
       List.length
         (filter (fun v => Severity_eqb (severity v) CRITICAL) (violations r));
     protocolStatus :=
       [ protocolBadge "CCP-3.1" "destructive" "VIOLATED" (violations r);
         protocolBadge "CCP-4.1" "destructive" "VIOLATED" (violations r);
         protocolBadge "CCP-4.2" "secondary" "WARNING" (violations r) ] |}.

Inductive PageBody :=
| Initializing
| Loaded (view : ReportView).

Record PageView := {
  buttonDisabled : bool;
  buttonIcon : Icon;
  buttonLabel : string;
  body : PageBody
}.

Definition render (d : Dashboard) : PageView :=
  {| buttonDisabled := isScanning d;
     buttonIcon := if isScanning d then ClockIcon else CheckCircle;
     buttonLabel := if isScanning d then "Scanning..." else "Run Integrity Scan";
     body := match report d with
             | Some r => Loaded (renderReport r)
             | None => Initializing
             end |}.

(** ** The page over time

    [executeScan] is an async function: it runs up to its [await] when it
    is called and from there on when the engine's promise settles.  A
    session is the page with the number of scans that are awaiting. *)

(** [executeScan] up to the [await]. *)
Definition executeScan_begin (d : Dashboard) : Dashboard :=
  let d1 := setIsScanning true d in
  {| report := report d1; isScanning := isScanning d1; console := console d1;
     pageClock := pageClock d1;
     actions := actions d1 ++ [InvokeEngine] |}.

(** [executeScan] from the [await] on, the engine having settled. *)
Definition executeScan_resume (settled : Settled IntegrityReport * Clock)
    (d : Dashboard) : Dashboard :=
  let d2 :=
    {| report := report d; isScanning := isScanning d; console := console d;
       pageClock := snd settled; actions := actions d |} in
  let d3 :=
    match fst settled with
    | Fulfilled scanReport => setReport scanReport d2
    | Rejected error => console_error "Scan failed:" error d2
    end in
  setIsScanning false d3.

Inductive PageEvent :=
| ClickRunScan
| EngineSettles (settled : Settled IntegrityReport * Clock).

Record Session := {
  shown : Dashboard;
  awaiting : nat
}.

(** The mount effect calls [executeScan] once. *)
Definition mountedSession (clock : Clock) : Session :=
  {| shown := executeScan_begin (mountedDashboard clock); awaiting := 1 |}.

(** A click reaches [executeScan] unless the button is disabled; a
    settlement resumes the oldest awaiting scan. *)
Definition handle (s : Session) (ev : PageEvent) : Session :=
  match ev with
  | ClickRunScan =>
      if buttonDisabled (render (shown s)) then s
      else {| shown := executeScan_begin (shown s);
              awaiting := S (awaiting s) |}
  | EngineSettles settled =>
      match awaiting s with
      | O => s
      | S k => {| shown := executeScan_resume settled (shown s);
                  awaiting := k |}
      end
  end.

Definition handleAll (s : Session) (evs : list PageEvent) : Session :=
  fold_left handle evs s.

(** ** Further notions the statements use *)

(** An ERROR event without audit payload; an ERROR event with one. *)
Definition unaudited (event : AssetEvent) : bool :=
  isError event && payloadAbsentOrEmpty event.

Definition audited (event : AssetEvent) : bool :=
  isError event && negb (payloadAbsentOrEmpty event).

(** An operator below the 0.6 baseline that holds a task. *)
Definition belowBaselineOnTask (status : OperatorStatus) : bool :=
  (trustRating status <? 0.6)%float && negb (isNull (currentTaskId status)).

Definition flagged (status : OperatorStatus) : bool :=
  match operatorRule status with Some _ => true | None => false end.

Definition isDataIntegrity (v : Violation) : bool :=
  match type v with DATA_INTEGRITY => true | _ => false end.

(** The score of a report with [criticals] CRITICAL violations. *)
Definition scoreFor (criticals : nat) : float :=
  roundedScore (healthScore criticals).

Definition decimalOf (n : Z) : string :=
  NilZero.string_of_uint (N.to_uint (Z.to_N n)).

Definition isFulfilled (ev : PageEvent) : bool :=
  match ev with
  | EngineSettles (Fulfilled _, _) => true
  | _ => false
  end.

(** An idle operator below the 0.8 mark: the condition of the second
    branch. *)
Definition belowStableIdle (status : OperatorStatus) : bool :=
  (trustRating status <? 0.8)%float && isNull (currentTaskId status).

Definition compliantBadge : Badge :=
  {| variant := "outline"; badgeText := "COMPLIANT" |}.

(** Sample inputs for the statements below. *)
Definition unratedOperator : OperatorStatus :=
  {| operatorId := "OP-NAN"; trustRating := PrimFloat.nan;
     currentTaskId := Some "T-001";
     lastKnownLocation := {| latitude := 0; longitude := 0; zoneId := None |};
     role := COMMAND |}.

Definition tickingClock : Clock := fun k => (1700000000000 + Z.of_nat k)%Z.

(** The three ways an operator status can fall: first branch, second
    branch, neither. *)
Ltac operator_cases status :=
  destruct ((trustRating status <? 0.6)%float
            && negb (isNull (currentTaskId status)));
  [|destruct ((trustRating status <? 0.8)%float
              && isNull (currentTaskId status))].

(** ** The two passes as folds over the arguments *)

Lemma nth_error_skipn_cons {A : Type} (l : list A) :
  forall k x, nth_error l k = Some x -> skipn k l = x :: skipn (S k) l.
Proof.
  induction l as [|a l IH]; intros [|k] x H; simpl in H; try discriminate.
  - now inversion H.
  - now apply IH.
Qed.

Lemma nth_error_skipn_nil {A : Type} (l : list A) :
  forall k, nth_error l k = None -> skipn k l = [].
Proof.
  induction l as [|a l IH]; intros [|k] H; simpl in *;
    try reflexivity; try discriminate.
  now apply IH.
Qed.

Lemma forEachFrom_fold {A : Type} (arr : ScanState -> list A)
    (callback : A -> ScanState -> ScanState) :
  (forall x st, arr (callback x st) = arr st) ->
  forall steps k st,
    forEachFrom arr callback k steps st
    = fold_left (fun s x => callback x s) (firstn steps (skipn k (arr st))) st.
Proof.
  intros Hframe.
  induction steps as [|steps IH]; intros k st; simpl.
  - reflexivity.
  - destruct (nth_error (arr st) k) as [x|] eqn:Hk.
    + rewrite IH, Hframe.
      rewrite (nth_error_skipn_cons _ _ _ Hk). reflexivity.
    + rewrite IH.
      rewrite (nth_error_skipn_nil _ _ Hk).
      assert (Hk' : nth_error (arr st) (S k) = None).
      { apply nth_error_None. apply nth_error_None in Hk. lia. }
      rewrite (nth_error_skipn_nil _ _ Hk').
      now rewrite firstn_nil.
Qed.

Lemma forEach_fold {A : Type} (arr : ScanState -> list A)
    (callback : A -> ScanState -> ScanState) :
  (forall x st, arr (callback x st) = arr st) ->
  forall st,
    forEach arr callback st = fold_left (fun s x => callback x s) (arr st) st.
Proof.
  intros Hframe st. unfold forEach.
  rewrite (forEachFrom_fold arr callback Hframe). simpl.
  now rewrite firstn_all.
Qed.

Lemma assetCallback_frame event st :
  allEvents (assetCallback event st) = allEvents st
  /\ allStatuses (assetCallback event st) = allStatuses st.
Proof.
  unfold assetCallback.
  destruct (StatusCode_eqb (statusCode event) ERROR);
    [destruct (payloadMissing event)|]; split; reflexivity.
Qed.

Lemma operatorCallback_frame status st :
  allEvents (operatorCallback status st) = allEvents st
  /\ allStatuses (operatorCallback status st) = allStatuses st.
Proof.
  unfold operatorCallback.
  operator_cases status;
    split; reflexivity.
Qed.

Lemma assetCallback_effect event st :
  assetCallback event st
  = {| allEvents := allEvents st;
       allStatuses := allStatuses st;
       found := found st ++ assetFindings event;
       criticalCount :=
         criticalCount st + (if isError event then 1 else 0) |}.
Proof.
  unfold assetCallback, assetFindings, isError.
  destruct st as [es ss vs n]; simpl.
  destruct (StatusCode_eqb (statusCode event) ERROR); simpl.
  - destruct (payloadMissing event); unfold push, incrCritical; simpl;
      rewrite ?app_nil_r; f_equal; lia.
  - rewrite app_nil_r. f_equal. lia.
Qed.

Lemma operatorCallback_effect status st :
  operatorCallback status st
  = {| allEvents := allEvents st;
       allStatuses := allStatuses st;
       found := found st ++ operatorFindings status;
       criticalCount := criticalCount st |}.
Proof.
  unfold operatorCallback, operatorFindings.
  destruct st as [es ss vs n]; simpl.
  operator_cases status;
    unfold push; simpl; rewrite ?app_nil_r; reflexivity.
Qed.

Lemma assetPass_fold events :
  forall st,
    fold_left (fun s x => assetCallback x s) events st
    = {| allEvents := allEvents st;
         allStatuses := allStatuses st;
         found := found st ++ flat_map assetFindings events;
         criticalCount :=
           criticalCount st + List.length (filter isError events) |}.
Proof.
  induction events as [|e events IH]; intros st; simpl.
  - destruct st; simpl. rewrite app_nil_r. f_equal. lia.
  - rewrite IH, assetCallback_effect; simpl.
    rewrite <- app_assoc. f_equal.
    destruct (isError e); simpl; lia.
Qed.

Lemma operatorPass_fold statuses :
  forall st,
    fold_left (fun s x => operatorCallback x s) statuses st
    = {| allEvents := allEvents st;
         allStatuses := allStatuses st;
         found := found st ++ flat_map operatorFindings statuses;
         criticalCount := criticalCount st |}.
Proof.
  induction statuses as [|o statuses IH]; intros st; simpl.
  - destruct st; simpl. now rewrite app_nil_r.
  - rewrite IH, operatorCallback_effect; simpl.
    now rewrite <- app_assoc.
Qed.

(** The report and the final store of a scan, in closed form. *)
Lemma integrityScan_closed clock events statuses :
  integrityScan clock (entryState events statuses)
  = ({| timestamp := clock 2%nat;
        systemHealthScore :=
          roundedScore
            (healthScore
               (List.length
                  (criticalViolations
                     (flat_map assetFindings events
                      ++ flat_map operatorFindings statuses))));
        criticalAssetCount := List.length (filter isError events);
        violations :=
          flat_map assetFindings events ++ flat_map operatorFindings statuses;
        scanDurationMs := (clock 1%nat - clock 0%nat)%Z |},
     {| allEvents := events;
        allStatuses := statuses;
        found :=
          flat_map assetFindings events ++ flat_map operatorFindings statuses;
        criticalCount := List.length (filter isError events) |},
     fun k => clock (S (S (S k)))).
Proof.
  unfold integrityScan, Date_now.
  rewrite (forEach_fold allEvents assetCallback
             (fun x st => proj1 (assetCallback_frame x st))).
  rewrite assetPass_fold.
  rewrite (forEach_fold allStatuses operatorCallback
             (fun x st => proj2 (operatorCallback_frame x st))).
  rewrite operatorPass_fold. simpl.
  reflexivity.
Qed.

Lemma runIntegrityScan_closed clock events statuses :
  runIntegrityScan clock events statuses
  = Fulfilled (fst (fst (integrityScan clock (entryState events statuses)))).
Proof. reflexivity. Qed.

Lemma violationsOf_scan clock events statuses :
  violationsOf (runIntegrityScan clock events statuses)
  = flat_map assetFindings events ++ flat_map operatorFindings statuses.
Proof.
  unfold runIntegrityScan. now rewrite integrityScan_closed.
Qed.

(** ** Comparisons of binary64 numbers *)

Lemma SFcompare_antisym a b :
  SFcompare b a = option_map CompOpp (SFcompare a b).
Proof.
  destruct a as [sa|sa| |sa ma ea], b as [sb|sb| |sb mb eb]; simpl;
    try reflexivity;
    try (destruct sa; reflexivity);
    try (destruct sb; reflexivity);
    try (destruct sa, sb; reflexivity).
  destruct sa, sb; simpl; try reflexivity;
    rewrite (Z.compare_antisym ea eb);
    destruct (ea ?= eb)%Z; simpl; try reflexivity;
    rewrite (Pos.compare_cont_antisym ma mb Eq); simpl;
    reflexivity.
Qed.

Lemma leb_not_ltb x y :
  (x <=? y)%float = true -> (y <? x)%float = false.
Proof.
  rewrite FloatAxioms.leb_spec, FloatAxioms.ltb_spec. unfold SFleb, SFltb.
  rewrite (SFcompare_antisym (Prim2SF x) (Prim2SF y)).
  destruct (SFcompare (Prim2SF x) (Prim2SF y)) as [[ | | ]|];
    simpl; intros H; try reflexivity; discriminate.
Qed.

Lemma below_06_below_08 x :
  (x <? 0.6)%float = true -> (x <? 0.8)%float = true.
Proof.
  rewrite !FloatAxioms.ltb_spec.
  change (Prim2SF 0.6) with (S754_finite false 5404319552844595 (-53)).
  change (Prim2SF 0.8) with (S754_finite false 7205759403792794 (-53)).
  unfold SFltb.
  destruct (Prim2SF x) as [s|s| |s m e]; cbn [SFcompare];
    try (intros H; exact H).
  destruct s; try (intros H; exact H).
  destruct (e ?= -53)%Z; try (intros H; exact H).
  rewrite !Pos.compare_cont_spec. cbn [Pos.switch_Eq].
  destruct (Pos.compare_spec m 5404319552844595) as [H6|H6|H6];
    try discriminate.
  intros _.
  assert (H8 : (m < 7205759403792794)%positive)
    by (apply (Pos.lt_trans _ _ _ H6); reflexivity).
  apply Pos.compare_lt_iff in H8. now rewrite H8.
Qed.

(** ** Pass A *)

Lemma payloadMissing_absentOrEmpty event :
  payloadMissing event = payloadAbsentOrEmpty event.
Proof.
  unfold payloadMissing, payloadAbsentOrEmpty, Object_keys.
  destruct (dataPayload event) as [[|kv o]|]; reflexivity.
Qed.

Lemma flat_map_assetFindings events :
  flat_map assetFindings events
  = map assetViolation
      (filter (fun e => isError e && payloadAbsentOrEmpty e) events).
Proof.
  induction events as [|e events IH]; simpl; [reflexivity|].
  unfold assetFindings at 1. rewrite payloadMissing_absentOrEmpty.
  destruct (isError e && payloadAbsentOrEmpty e); simpl; now rewrite IH.
Qed.

Lemma operatorFindings_type status :
  Forall (fun v => type v <> DATA_INTEGRITY) (operatorFindings status).
Proof.
  unfold operatorFindings.
  operator_cases status;
    repeat constructor; simpl; discriminate.
Qed.

Lemma StatusCode_eqb_eq a b : StatusCode_eqb a b = true <-> a = b.
Proof. destruct a, b; simpl; split; intros H; congruence. Qed.

(** C2: the counter of the report is the number of ERROR events; the
    violations the asset events cause are, in input order, one
    DATA_INTEGRITY / CRITICAL / CCP-3.1 violation carrying the asset's
    identifier for each ERROR event whose payload is absent or empty, and
    nothing else; an ERROR event with a non-empty payload only counts, and
    an event with another status does neither. *)
Theorem asset_pass_counts_and_flags clock events statuses :
  exists r,
    runIntegrityScan clock events statuses = Fulfilled r
    /\ criticalAssetCount r = List.length (filter isError events)
    /\ violations r
       = map assetViolation
           (filter (fun e => isError e && payloadAbsentOrEmpty e) events)
         ++ violationsOf (runIntegrityScan clock [] statuses)
    /\ Forall (fun v => type v <> DATA_INTEGRITY)
         (violationsOf (runIntegrityScan clock [] statuses))
    /\ (forall e,
          signature (assetViolation e)
          = (assetUuid e, DATA_INTEGRITY, CRITICAL, "CCP-3.1"%string))
    /\ (forall e,
          statusCode e = ERROR -> payloadAbsentOrEmpty e = false ->
          exists r1,
            runIntegrityScan clock [e] [] = Fulfilled r1
            /\ criticalAssetCount r1 = 1 /\ violations r1 = [])
    /\ (forall e,
          statusCode e <> ERROR ->
          exists r1,
            runIntegrityScan clock [e] [] = Fulfilled r1
            /\ criticalAssetCount r1 = 0 /\ violations r1 = []).
Proof.
  eexists. split; [apply runIntegrityScan_closed|].
  rewrite !violationsOf_scan, integrityScan_closed; simpl.
  repeat split.
  - now rewrite flat_map_assetFindings.
  - induction statuses as [|o statuses IH]; simpl; [constructor|].
    apply Forall_app. split; [apply operatorFindings_type|exact IH].
  - intros e Hst Hpay. eexists. split; [apply runIntegrityScan_closed|].
    rewrite integrityScan_closed; simpl.
    unfold assetFindings, isError.
    rewrite payloadMissing_absentOrEmpty, Hpay, Hst; simpl.
    split; reflexivity.
  - intros e Hst. eexists. split; [apply runIntegrityScan_closed|].
    rewrite integrityScan_closed; simpl.
    unfold assetFindings, isError.
    destruct (StatusCode_eqb (statusCode e) ERROR) eqn:E.
    + apply StatusCode_eqb_eq in E. contradiction.
    + now simpl.
Qed.

(** ** Pass B *)

Lemma operatorFindings_signatures status :
  map signature (operatorFindings status) = operatorSignatures status.
Proof.
  unfold operatorFindings, operatorSignatures, operatorRule.
  operator_cases status;
    reflexivity.
Qed.

Lemma flat_map_operatorSignatures statuses :
  map signature (flat_map operatorFindings statuses)
  = flat_map operatorSignatures statuses.
Proof.
  induction statuses as [|o statuses IH]; simpl; [reflexivity|].
  now rewrite map_app, IH, operatorFindings_signatures.
Qed.

(** C3: each operator status adds at most one violation, chosen by the two
    ordered branches: trust below 0.6 with a task gives TRUST_VIOLATION /
    CRITICAL / CCP-4.1; otherwise trust below 0.8 without a task gives
    PROTOCOL_BREACH / WARNING / CCP-4.2; otherwise nothing.  Trust below
    0.6 without a task therefore gives the WARNING, trust of at least 0.6
    with a task gives nothing, and trust of at least 0.8 without a task
    gives nothing. *)
Theorem operator_pass_rule clock events statuses :
  exists r,
    runIntegrityScan clock events statuses = Fulfilled r
    /\ map signature (violations r)
       = map signature (violationsOf (runIntegrityScan clock events []))
         ++ flat_map operatorSignatures statuses
    /\ (forall s, List.length (operatorSignatures s) <= 1)
    /\ (forall s task,
          (trustRating s <? 0.6)%float = true -> currentTaskId s = Some task ->
          operatorSignatures s
          = [(operatorId s, TRUST_VIOLATION, CRITICAL, "CCP-4.1"%string)])
    /\ (forall s,
          (trustRating s <? 0.6)%float = true -> currentTaskId s = None ->
          operatorSignatures s
          = [(operatorId s, PROTOCOL_BREACH, WARNING, "CCP-4.2"%string)])
    /\ (forall s,
          (trustRating s <? 0.6)%float = false ->
          (trustRating s <? 0.8)%float = true -> currentTaskId s = None ->
          operatorSignatures s
          = [(operatorId s, PROTOCOL_BREACH, WARNING, "CCP-4.2"%string)])
    /\ (forall s task,
          (0.6 <=? trustRating s)%float = true -> currentTaskId s = Some task ->
          operatorSignatures s = [])
    /\ (forall s,
          (0.8 <=? trustRating s)%float = true -> currentTaskId s = None ->
          operatorSignatures s = []).
Proof.
  eexists. split; [apply runIntegrityScan_closed|].
  rewrite violationsOf_scan, integrityScan_closed; simpl.
  rewrite app_nil_r.
  repeat split.
  - now rewrite map_app, flat_map_operatorSignatures.
  - intros s. unfold operatorSignatures.
    destruct (operatorRule s) as [[[t sev] ref]|]; simpl; lia.
  - intros s task Hlt Htask. unfold operatorSignatures, operatorRule.
    now rewrite Hlt, Htask.
  - intros s Hlt Htask. unfold operatorSignatures, operatorRule.
    now rewrite Hlt, (below_06_below_08 _ Hlt), Htask.
  - intros s Hge Hlt Htask. unfold operatorSignatures, operatorRule.
    now rewrite Hge, Hlt, Htask.
  - intros s task Hge Htask. unfold operatorSignatures, operatorRule.
    rewrite (leb_not_ltb _ _ Hge), Htask; simpl.
    now rewrite andb_false_r.
  - intros s Hge Htask. unfold operatorSignatures, operatorRule.
    rewrite (leb_not_ltb _ _ Hge), Htask; simpl.
    now rewrite andb_false_r.
Qed.

(** ** The order of the violations, the frame and determinism *)

Lemma flat_map_ext_eq {A B : Type} (f g : A -> list B) l :
  (forall x, f x = g x) -> flat_map f l = flat_map g l.
Proof.
  intros H. induction l as [|a l IH]; simpl; [reflexivity|].
  now rewrite H, IH.
Qed.

(** C5: the violations of the report are those of the asset events, event
    by event in input order, followed by those of the operator statuses,
    status by status in input order. *)
Theorem violations_in_input_order clock events statuses :
  exists r,
    runIntegrityScan clock events statuses = Fulfilled r
    /\ violations r
       = flat_map (fun e => violationsOf (runIntegrityScan clock [e] [])) events
         ++ flat_map (fun s => violationsOf (runIntegrityScan clock [] [s]))
              statuses.
Proof.
  eexists. split; [apply runIntegrityScan_closed|].
  rewrite integrityScan_closed. cbn [fst violations].
  f_equal; apply flat_map_ext_eq; intros x;
    rewrite violationsOf_scan; cbn [flat_map]; now rewrite ?app_nil_r.
Qed.

(** C6: the scan writes to neither argument: no callback changes the two
    arrays, and the store the scan leaves holds both as they were passed. *)
Theorem scan_leaves_arguments_unchanged clock events statuses :
  (forall e st,
     allEvents (assetCallback e st) = allEvents st
     /\ allStatuses (assetCallback e st) = allStatuses st)
  /\ (forall s st,
        allEvents (operatorCallback s st) = allEvents st
        /\ allStatuses (operatorCallback s st) = allStatuses st)
  /\ allEvents (snd (fst (integrityScan clock (entryState events statuses))))
     = events
  /\ allStatuses (snd (fst (integrityScan clock (entryState events statuses))))
     = statuses.
Proof.
  split; [exact assetCallback_frame|].
  split; [exact operatorCallback_frame|].
  rewrite integrityScan_closed; simpl. split; reflexivity.
Qed.

(** C7: two scans of the same arguments, whatever the clock reads, report
    the same violations, the same critical-asset count and the same
    health score. *)
Theorem scan_deterministic clock1 clock2 events statuses :
  exists r1 r2,
    runIntegrityScan clock1 events statuses = Fulfilled r1
    /\ runIntegrityScan clock2 events statuses = Fulfilled r2
    /\ violations r1 = violations r2
    /\ criticalAssetCount r1 = criticalAssetCount r2
    /\ systemHealthScore r1 = systemHealthScore r2.
Proof.
  do 2 eexists.
  split; [apply runIntegrityScan_closed|].
  split; [apply runIntegrityScan_closed|].
  rewrite !integrityScan_closed; simpl. repeat split; reflexivity.
Qed.

(** ** Rounding to binary64: what the score needs

    The decoded operations of [SpecFloat] are followed on symbolic
    mantissas: a right shift divides, rounding to nearest moves the
    mantissa by at most one, and a value of at least a power of two is
    never rounded below it. *)

Section Binary64.
Local Open Scope Z_scope.

(** The number of bits of a mantissa. *)
Lemma digits2_pos_log2 p : Zpos (digits2_pos p) = Z.log2 (Zpos p) + 1.
Proof.
  induction p as [p IH|p IH|]; cbn [digits2_pos].
  - rewrite Pos2Z.inj_succ, IH, Pos2Z.inj_xI, Z.log2_succ_double; lia.
  - rewrite Pos2Z.inj_succ, IH, Pos2Z.inj_xO, Z.log2_double; lia.
  - reflexivity.
Qed.

Lemma iter_pos_nat {A : Type} (f : A -> A) n :
  forall x, iter_pos f n x = Nat.iter (Pos.to_nat n) f x.
Proof.
  induction n as [n IH|n IH|]; intros x; cbn [iter_pos].
  - rewrite !IH, Pos2Nat.inj_xI.
    replace (S (2 * Pos.to_nat n))%nat
      with (Pos.to_nat n + (Pos.to_nat n + 1))%nat by lia.
    rewrite !Nat.iter_add. reflexivity.
  - rewrite !IH, Pos2Nat.inj_xO.
    replace (2 * Pos.to_nat n)%nat
      with (Pos.to_nat n + Pos.to_nat n)%nat by lia.
    rewrite Nat.iter_add. reflexivity.
  - reflexivity.
Qed.

Lemma shr_1_m mrs : 0 <= shr_m mrs -> shr_m (shr_1 mrs) = shr_m mrs / 2.
Proof.
  destruct mrs as [m r s]. cbn [shr_m].
  intros Hm. rewrite <- Z.div2_div.
  destruct m as [|[p|p|]|p]; try reflexivity. lia.
Qed.

Lemma shr_m_iter k :
  forall mrs, 0 <= shr_m mrs ->
    shr_m (Nat.iter k shr_1 mrs) = shr_m mrs / 2 ^ Z.of_nat k.
Proof.
  induction k as [|k IH]; intros mrs Hm.
  - cbn. now rewrite Z.div_1_r.
  - rewrite Nat.iter_succ, shr_1_m.
    + rewrite IH by exact Hm.
      rewrite Nat2Z.inj_succ, Z.pow_succ_r by lia.
      rewrite Z.div_div by lia. f_equal. lia.
    + rewrite IH by exact Hm. apply Z.div_pos; lia.
Qed.

(** Shifting a mantissa right by [n] bits divides it by [2^n]. *)
Lemma shr_m_iter_pos n m r s :
  0 <= m ->
  shr_m (iter_pos shr_1 n {| shr_m := m; shr_r := r; shr_s := s |})
  = m / 2 ^ Zpos n.
Proof.
  intros Hm. rewrite iter_pos_nat, shr_m_iter by exact Hm.
  now rewrite positive_nat_Z.
Qed.

Lemma round_nearest_even_bounds m l :
  m <= round_nearest_even m l <= m + 1.
Proof.
  destruct l as [|[ | | ]]; cbn [round_nearest_even];
    try destruct (Z.even m); lia.
Qed.

Lemma shr_fexp_exact (m : positive) e :
  -1074 <= Z.log2 (Zpos m) + 1 + e - 53 ->
  shr_fexp prec emax (Zpos m) e loc_Exact
  = shr {| shr_m := Zpos m; shr_r := false; shr_s := false |} e
        (Z.log2 (Zpos m) + 1 - 53).
Proof.
  intros H. unfold shr_fexp, fexp, SpecFloat.emin, Zdigits2, prec, emax.
  rewrite digits2_pos_log2. cbn [shr_record_of_loc].
  f_equal. lia.
Qed.

(** Rounding in the normal range: a mantissa of at most 53 bits is kept as
    it is; a longer one becomes a 53-bit mantissa with the exponent raised
    by the bits dropped (one more if rounding carried); or the result
    overflows. *)
Lemma binary_round_aux_normal s mx ex :
  -1074 <= Z.log2 (Zpos mx) + 1 + ex - 53 ->
  binary_round_aux prec emax s (Zpos mx) ex loc_Exact = S754_infinity s
  \/ exists m' e',
       binary_round_aux prec emax s (Zpos mx) ex loc_Exact
       = S754_finite s m' e'
       /\ e' <= 971
       /\ ((Z.log2 (Zpos mx) + 1 <= 53 /\ m' = mx /\ e' = ex)
           \/ (53 < Z.log2 (Zpos mx) + 1 /\ Z.log2 (Zpos m') = 52
               /\ ex + (Z.log2 (Zpos mx) + 1) - 53 <= e')).
Proof.
  intros Hnormal. unfold binary_round_aux.
  rewrite shr_fexp_exact by exact Hnormal.
  set (d := Z.log2 (Zpos mx) + 1) in *.
  destruct (d - 53) as [|n|n] eqn:Hn.
  1, 3: unfold shr; cbn [shr_m loc_of_shr_record round_nearest_even];
    rewrite shr_fexp_exact by (fold d; lia); fold d; rewrite Hn;
    unfold shr; cbn [shr_m]; change (emax - prec) with 971;
    destruct (ex <=? 971) eqn:Hex; [right|left; reflexivity];
    exists mx, ex; repeat split; try (apply Z.leb_le; exact Hex);
    left; repeat split; lia.
  unfold shr.
  set (mrs := iter_pos shr_1 n _).
  assert (Hq : shr_m mrs = Zpos mx / 2 ^ Zpos n)
    by (apply shr_m_iter_pos; lia).
  assert (Hd : 2 ^ (d - 1) <= Zpos mx < 2 ^ d).
  { unfold d. replace (Z.log2 (Zpos mx) + 1 - 1) with (Z.log2 (Zpos mx)) by lia.
    replace (Z.log2 (Zpos mx) + 1) with (Z.succ (Z.log2 (Zpos mx))) by lia.
    apply Z.log2_spec. lia. }
  assert (Hpow : 0 < 2 ^ Zpos n) by (apply Z.pow_pos_nonneg; lia).
  assert (Hsplit1 : 2 ^ (d - 1) = 2 ^ Zpos n * 2 ^ 52).
  { rewrite <- Z.pow_add_r by lia. f_equal. lia. }
  assert (Hsplit2 : 2 ^ d = 2 ^ Zpos n * 2 ^ 53).
  { rewrite <- Z.pow_add_r by lia. f_equal. lia. }
  assert (Hqb : 2 ^ 52 <= shr_m mrs < 2 ^ 53).
  { rewrite Hq. split.
    - apply Z.div_le_lower_bound; lia.
    - apply Z.div_lt_upper_bound; lia. }
  pose proof (round_nearest_even_bounds (shr_m mrs) (loc_of_shr_record mrs))
    as Hr.
  set (q := round_nearest_even (shr_m mrs) (loc_of_shr_record mrs)) in *.
  destruct q as [|pq|pq] eqn:Hpq; try lia.
  destruct (Z.eq_dec (Zpos pq) (2 ^ 53)) as [Htop|Htop].
  - change (2 ^ 53) with (Zpos 9007199254740992) in Htop.
    inversion Htop as [Hpq']. 
    assert (Hnorm2 : -1074 <= 1 + (ex + Zpos n)) by lia.
    unfold shr_fexp, fexp, SpecFloat.emin, Zdigits2, prec, emax.
    change (Z.pos (digits2_pos 9007199254740992)) with 54.
    replace (Z.max (54 + (ex + Z.pos n) - 53) (3 - 1024 - 53) - (ex + Z.pos n))
      with 1 by lia.
    cbn [shr_record_of_loc shr iter_pos shr_1 shr_m].
    destruct (ex + Z.pos n + 1 <=? 1024 - 53) eqn:Hex; [right|left; reflexivity].
    exists 4503599627370496%positive, (ex + Zpos n + 1).
    split; [reflexivity|].
    split; [apply Z.leb_le in Hex; lia|].
    right. split; [lia|]. split; [reflexivity|lia].
  - assert (Hlog : Z.log2 (Zpos pq) = 52).
    { apply Z.log2_unique; lia. }
    rewrite shr_fexp_exact by lia.
    rewrite Hlog. change (52 + 1 - 53) with 0.
    unfold shr; cbn [shr_m]. change (emax - prec) with 971.
    destruct (ex + Zpos n <=? 971) eqn:Hex; [right|left; reflexivity].
    exists pq, (ex + Zpos n).
    split; [reflexivity|].
    split; [apply Z.leb_le in Hex; lia|].
    right. split; [lia|]. split; [exact Hlog|lia].
Qed.

Lemma shl_align_value mx ex ez :
  ez <= ex -> Zpos (fst (shl_align mx ex ez)) = Zpos mx * 2 ^ (ex - ez).
Proof.
  intros H. unfold shl_align.
  destruct (ez - ex) as [|k|k] eqn:Hk; cbn [fst]; try lia.
  - replace (ex - ez) with 0 by lia. lia.
  - fold (shift_pos k mx). rewrite shift_pos_correct, Z.pow_pos_fold.
    replace (ex - ez) with (Zpos k) by lia. lia.
Qed.

Lemma shl_align_exponent mx ex ez :
  ez <= ex -> snd (shl_align mx ex ez) = ez.
Proof.
  intros H. unfold shl_align.
  destruct (ez - ex) as [|k|k] eqn:Hk; cbn [snd]; lia.
Qed.

Lemma shr_nonneg mrs e n : 0 <= shr_m mrs -> 0 <= shr_m (fst (shr mrs e n)).
Proof.
  intros H. unfold shr. destruct n as [|n|n]; cbn [fst]; try exact H.
  destruct mrs as [m r s]. cbn [shr_m] in H.
  rewrite shr_m_iter_pos by exact H.
  apply Z.div_pos; [exact H|]. apply Z.pow_pos_nonneg; lia.
Qed.

Lemma shr_fexp_nonneg m e l :
  0 <= m -> 0 <= shr_m (fst (shr_fexp prec emax m e l)).
Proof.
  intros H. unfold shr_fexp. apply shr_nonneg.
  destruct l as [|[ | | ]]; exact H.
Qed.

(** Rounding keeps the sign and never yields NaN. *)
Lemma binary_round_aux_sign s m e :
  0 <= m ->
  match binary_round_aux prec emax s m e loc_Exact with
  | S754_zero s' | S754_finite s' _ _ | S754_infinity s' => s' = s
  | S754_nan => False
  end.
Proof.
  intros Hm. unfold binary_round_aux.
  pose proof (shr_fexp_nonneg m e loc_Exact Hm) as H1.
  destruct (shr_fexp prec emax m e loc_Exact) as [mrs1 e1]. cbn [fst] in H1.
  pose proof (round_nearest_even_bounds (shr_m mrs1) (loc_of_shr_record mrs1))
    as Hr.
  assert (H2 : 0 <= round_nearest_even (shr_m mrs1) (loc_of_shr_record mrs1))
    by lia.
  pose proof (shr_fexp_nonneg _ e1 loc_Exact H2) as H3.
  destruct (shr_fexp prec emax _ e1 loc_Exact) as [mrs2 e2]. cbn [fst] in H3.
  destruct (shr_m mrs2) as [|p|p]; try lia; try reflexivity.
  destruct (e2 <=? emax - prec); reflexivity.
Qed.

Lemma binary_round_sign s m e :
  match binary_round prec emax s m e with
  | S754_zero s' | S754_finite s' _ _ | S754_infinity s' => s' = s
  | S754_nan => False
  end.
Proof.
  unfold binary_round.
  destruct (shl_align m e _) as [mz ez].
  apply binary_round_aux_sign. lia.
Qed.

Lemma atLeast_one_of_log2 m e :
  0 <= Z.log2 (Zpos m) + e -> atLeast 1 (S754_finite false m e).
Proof.
  intros H. cbn [atLeast].
  assert (Hm : 2 ^ Z.log2 (Zpos m) <= Zpos m)
    by (apply Z.log2_spec; lia).
  destruct (Z_lt_le_dec e 0) as [He|He].
  - rewrite (Z.max_r 0 (- e)), (Z.max_l 0 e) by lia.
    rewrite Z.pow_0_r, Z.mul_1_r, Z.mul_1_l.
    apply Z.le_trans with (2 := Hm). apply Z.pow_le_mono_r; lia.
  - rewrite (Z.max_l 0 (- e)), (Z.max_r 0 e) by lia.
    assert (0 < 2 ^ e) by (apply Z.pow_pos_nonneg; lia).
    rewrite Z.pow_0_r. nia.
Qed.

Lemma valid_of_digits m e :
  Z.log2 (Zpos m) = 52 -> -1074 <= e <= 971 ->
  valid_binary (S754_finite false m e) = true.
Proof.
  intros Hlog He. cbn [SpecFloat.valid_binary]. unfold bounded, canonical_mantissa.
  rewrite digits2_pos_log2, Hlog.
  unfold fexp, SpecFloat.emin, prec, emax.
  apply andb_true_intro. split.
  - apply Z.eqb_eq. lia.
  - apply Z.leb_le. lia.
Qed.

(** The number for an integer from 10 on is a valid binary64 of at least 10. *)
Lemma binary_round_integer p :
  10 <= Zpos p ->
  valid_binary (binary_round prec emax false p 0) = true
  /\ atLeast 10 (binary_round prec emax false p 0).
Proof.
  intros Hp. unfold binary_round.
  assert (Hl : 0 <= Z.log2 (Zpos p)) by apply Z.log2_nonneg.
  replace (fexp prec emax (Zpos (digits2_pos p) + 0))
    with (Z.log2 (Zpos p) + 1 - 53)
    by (rewrite digits2_pos_log2; unfold fexp, SpecFloat.emin, prec, emax; lia).
  set (d := Z.log2 (Zpos p) + 1) in *.
  destruct (Z_lt_le_dec d 53) as [Hd|Hd].
  - (* fewer than 53 bits: the mantissa is shifted left, nothing is lost *)
    pose proof (shl_align_value p 0 (d - 53) ltac:(lia)) as Hv.
    pose proof (shl_align_exponent p 0 (d - 53) ltac:(lia)) as He.
    destruct (shl_align p 0 (d - 53)) as [mz ez]. cbn [fst snd] in Hv, He.
    subst ez. replace (0 - (d - 53)) with (53 - d) in Hv by lia.
    assert (Hlog : Z.log2 (Zpos mz) = 52).
    { rewrite Hv, Z.log2_mul_pow2 by lia. unfold d. lia. }
    destruct (binary_round_aux_normal false mz (d - 53)) as [Hinf|(m' & e' & Heq & He' & Hcase)].
    + rewrite Hlog. lia.
    + rewrite Hinf. split; [reflexivity|exact I].
    + rewrite Heq. rewrite Hlog in Hcase.
      destruct Hcase as [(_ & -> & ->)|(Habs & _)]; [|lia].
      split; [apply valid_of_digits; [exact Hlog|lia]|].
      cbn [atLeast].
      rewrite (Z.max_r 0 (- (d - 53))), (Z.max_l 0 (d - 53)) by lia.
      rewrite Hv. replace (- (d - 53)) with (53 - d) by lia.
      rewrite Z.pow_0_r.
      assert (0 < 2 ^ (53 - d)) by (apply Z.pow_pos_nonneg; lia). nia.
  - (* 53 bits or more: the mantissa is rounded to 53 bits *)
    assert (Hal : shl_align p 0 (d - 53) = (p, 0)).
    { unfold shl_align. destruct (d - 53 - 0) eqn:E; try reflexivity. lia. }
    rewrite Hal.
    destruct (binary_round_aux_normal false p 0) as [Hinf|(m' & e' & Heq & He' & Hcase)].
    + fold d. lia.
    + rewrite Hinf. split; [reflexivity|exact I].
    + rewrite Heq. fold d in Hcase.
      destruct Hcase as [(Hd' & -> & ->)|(Hd' & Hlog & He'')].
      * split; [apply valid_of_digits; [unfold d in *|]; lia|].
        cbn [atLeast]. cbn. lia.
      * split; [apply valid_of_digits; [exact Hlog|lia]|].
        cbn [atLeast].
        rewrite (Z.max_l 0 (- e')), (Z.max_r 0 e') by lia.
        assert (Hm : 2 ^ 52 <= Zpos m')
          by (rewrite <- Hlog; apply Z.log2_spec; lia).
        assert (0 < 2 ^ e') by (apply Z.pow_pos_nonneg; lia).
        rewrite Z.pow_0_r. nia.
Qed.

Lemma Number_of_nat_atLeast c :
  (10 <= c)%nat -> atLeast 10 (Prim2SF (Number_of_nat c)).
Proof.
  intros Hc. unfold Number_of_nat, Number_of_Z.
  destruct (Z.of_nat c) as [|p|p] eqn:Hz; try lia.
  cbn [binary_normalize].
  destruct (binary_round_integer p ltac:(lia)) as [Hvalid Hge].
  now rewrite Prim2SF_SF2Prim.
Qed.

(** At least 10, times the binary64 for 0.1, is at least 1. *)
Lemma times_tenth_atLeast x :
  atLeast 10 x -> atLeast 1 (SF64mul x (Prim2SF 0.1)).
Proof.
  change (Prim2SF 0.1) with (S754_finite false 7205759403792794 (-56)).
  destruct x as [s|[|]| |[|] m e]; cbn [atLeast]; try contradiction.
  - intros _. exact I.
  - intros Hx. unfold SF64mul, SFmul. cbn [xorb].
    rewrite Pos2Z.inj_mul.
    set (M := 7205759403792794) in *.
    assert (Hlog : 56 - e <= Z.log2 (Zpos m * M)).
    { destruct (Z_lt_le_dec (56 - e) 0) as [Hneg|Hpos].
      - pose proof (Z.log2_nonneg (Zpos m * M)). lia.
      - apply Z.log2_le_pow2; [unfold M; lia|].
        destruct (Z_lt_le_dec e 0) as [He|He].
        + rewrite (Z.max_r 0 (- e)), (Z.max_l 0 e), Z.pow_0_r in Hx by lia.
          replace (56 - e) with (56 + - e) by lia.
          rewrite Z.pow_add_r by lia.
          assert (0 < 2 ^ (- e)) by (apply Z.pow_pos_nonneg; lia).
          unfold M. change (2 ^ 56) with 72057594037927936. lia.
        + rewrite (Z.max_l 0 (- e)), (Z.max_r 0 e), Z.pow_0_r in Hx by lia.
          assert (Hp : 0 < 2 ^ e) by (apply Z.pow_pos_nonneg; lia).
          assert (Hsplit : 2 ^ 56 = 2 ^ (56 - e) * 2 ^ e).
          { rewrite <- Z.pow_add_r by lia. f_equal. lia. }
          apply (Z.mul_le_mono_pos_r _ _ (2 ^ e) Hp).
          rewrite <- Hsplit.
          unfold M. change (2 ^ 56) with 72057594037927936. lia. }
    replace (Zpos m * M) with (Zpos (m * 7205759403792794))
      in * by (rewrite Pos2Z.inj_mul; reflexivity).
    destruct (binary_round_aux_normal false (m * 7205759403792794) (e + -56))
      as [Hinf|(m' & e' & Heq & He' & Hcase)].
    + lia.
    + rewrite Hinf. exact I.
    + rewrite Heq. apply atLeast_one_of_log2.
      destruct Hcase as [(_ & -> & ->)|(_ & Hl & He'')]; lia.
Qed.

(** 1 minus a number of at least 1 is not positive. *)
Lemma one_minus_nonPositive x :
  atLeast 1 x -> nonPositive (SF64sub (Prim2SF 1) x).
Proof.
  change (Prim2SF 1) with (S754_finite false 4503599627370496 (-52)).
  destruct x as [s|[|]| |[|] m e]; cbn [atLeast]; try contradiction.
  - intros _. exact I.
  - intros Hx. unfold SF64sub, SFsub. cbn [cond_Zopp].
    set (ez := Z.min (-52) e).
    rewrite !shl_align_value by (unfold ez; lia).
    set (D := Z.pos 4503599627370496 * 2 ^ (-52 - ez) - Z.pos m * 2 ^ (e - ez)).
    assert (HD : D <= 0).
    { unfold D. change (Z.pos 4503599627370496) with (2 ^ 52).
      rewrite <- Z.pow_add_r by (unfold ez; lia).
      destruct (Z_lt_le_dec e 0) as [He|He].
      - rewrite (Z.max_r 0 (- e)), (Z.max_l 0 e), Z.pow_0_r in Hx by lia.
        assert (Hsplit : 2 ^ (52 + (-52 - ez)) = 2 ^ (- e) * 2 ^ (e - ez)).
        { rewrite <- Z.pow_add_r by (unfold ez; lia). f_equal. lia. }
        rewrite Hsplit.
        assert (0 <= 2 ^ (e - ez)) by (apply Z.pow_nonneg; lia). nia.
      - rewrite (Z.max_l 0 (- e)), (Z.max_r 0 e), Z.pow_0_r in Hx by lia.
        assert (Hez : ez = -52) by (unfold ez; lia). rewrite Hez.
        replace (52 + (-52 - -52)) with 52 by lia.
        replace (e - -52) with (52 + e) by lia.
        rewrite (Z.pow_add_r 2 52 e) by lia.
        assert (0 < 2 ^ e) by (apply Z.pow_pos_nonneg; lia).
        assert (0 < 2 ^ 52) by lia. nia. }
    destruct D as [|q|q]; try lia; cbn [binary_normalize].
    + exact I.
    + pose proof (binary_round_sign true q ez) as Hs.
      destruct (binary_round prec emax true q ez) as [s|s| |s m' e'];
        try contradiction; subst s; exact I.
Qed.

Lemma Math_max_zero d :
  nonPositive (Prim2SF d) -> Math_max 0 d = 0%float.
Proof.
  intros Hd. unfold Math_max, PrimFloat.is_nan.
  rewrite (FloatAxioms.eqb_spec d d), (FloatAxioms.ltb_spec 0 d).
  change (Prim2SF 0) with (S754_zero false).
  change (0 =? 0)%float with true. cbn [negb orb].
  unfold SFeqb, SFltb.
  destruct (Prim2SF d) as [s|[|]| |[|] m e]; cbn [nonPositive] in Hd;
    try contradiction; cbn [SFcompare negb].
  - destruct (d <? 0)%float; reflexivity.
  - destruct (d <? 0)%float; reflexivity.
  - rewrite Z.compare_refl, Pos.compare_cont_refl. cbn [CompOpp negb].
    destruct (d <? 0)%float; reflexivity.
Qed.

(** From ten CRITICAL violations on, the score is +0 before rounding. *)
Lemma healthScore_zero c : (10 <= c)%nat -> healthScore c = 0%float.
Proof.
  intros Hc. unfold healthScore. apply Math_max_zero.
  rewrite FloatAxioms.sub_spec, FloatAxioms.mul_spec.
  apply one_minus_nonPositive, times_tenth_atLeast, Number_of_nat_atLeast.
  exact Hc.
Qed.

End Binary64.

(** The filter of the scoring step keeps the CRITICAL violations, all of
    them and nothing else. *)
Lemma countCritical_filter vs :
  countCritical vs = List.length (criticalViolations vs).
Proof.
  induction vs as [|v vs IH]; [reflexivity|].
  cbn [countCritical criticalViolations filter].
  fold (criticalViolations vs).
  destruct (severity v); cbn [Severity_eqb List.length]; now rewrite IH.
Qed.

(** The score as a number with two decimals, for every count. *)
Lemma roundedScore_formula c :
  roundedScore (healthScore c) = twoDecimals (expectedHundredths c).
Proof.
  destruct (le_lt_dec 10 c) as [H|H].
  - rewrite healthScore_zero by exact H.
    unfold expectedHundredths. rewrite Z.max_l by lia.
    vm_compute. reflexivity.
  - do 10 (destruct c as [|c]; [vm_compute; reflexivity|]). lia.
Qed.

(** C4: the health score of a report is max(0, 1 - 0.1 c) written with two
    decimals, c being the number of its CRITICAL violations: 1.00, 0.90,
    ..., 0.10 for c = 0, ..., 9 and exactly 0 from c = 10 on. *)
Theorem health_score_formula clock events statuses :
  exists r,
    runIntegrityScan clock events statuses = Fulfilled r
    /\ systemHealthScore r
       = twoDecimals (expectedHundredths (countCritical (violations r)))
    /\ (10 <= countCritical (violations r) -> systemHealthScore r = 0%float)
    /\ (countCritical (violations r) = 0 -> systemHealthScore r = 1%float)
    /\ map (fun c => twoDecimals (expectedHundredths c)) (seq 0 11)
       = [1; 0.9; 0.8; 0.7; 0.6; 0.5; 0.4; 0.3; 0.2; 0.1; 0]%float.
Proof.
  eexists. split; [apply runIntegrityScan_closed|].
  rewrite integrityScan_closed.
  cbn [fst violations systemHealthScore]. rewrite countCritical_filter.
  set (c := List.length _).
  split; [apply roundedScore_formula|].
  split; [|split].
  - intros Hc. rewrite healthScore_zero by exact Hc. vm_compute. reflexivity.
  - intros Hc. rewrite Hc. vm_compute. reflexivity.
  - vm_compute. reflexivity.
Qed.

(** ** What a report can contain *)

Lemma assetFindings_allowed event :
  Forall allowedCombination (assetFindings event).
Proof.
  unfold assetFindings.
  destruct (isError event && payloadMissing event); constructor.
  - left. reflexivity.
  - constructor.
Qed.

Lemma operatorFindings_allowed status :
  Forall allowedCombination (operatorFindings status).
Proof.
  unfold operatorFindings.
  operator_cases status.
  - apply Forall_cons; [right; left; reflexivity|apply Forall_nil].
  - apply Forall_cons; [right; right; reflexivity|apply Forall_nil].
  - apply Forall_nil.
Qed.

Lemma Forall_flat_map_each {A B : Type} (P : B -> Prop) (f : A -> list B) l :
  (forall x, Forall P (f x)) -> Forall P (flat_map f l).
Proof.
  intros H. induction l as [|a l IH]; simpl; [constructor|].
  apply Forall_app. split; [apply H|exact IH].
Qed.

Lemma allowedCombination_inv v :
  allowedCombination v ->
  severity v <> NOTICE
  /\ In (protocolRef v) ["CCP-3.1"%string; "CCP-4.1"%string; "CCP-4.2"%string].
Proof.
  unfold allowedCombination.
  intros [H|[H|H]]; inversion H as [[Ht Hs Hp]]; rewrite Hs, Hp;
    (split; [discriminate|simpl; auto]).
Qed.

(** C9: every violation of every report carries one of the three
    combinations DATA_INTEGRITY / CRITICAL / CCP-3.1, TRUST_VIOLATION /
    CRITICAL / CCP-4.1, PROTOCOL_BREACH / WARNING / CCP-4.2; none has
    severity NOTICE and none refers to another clause. *)
Theorem violations_are_of_three_kinds clock events statuses :
  exists r,
    runIntegrityScan clock events statuses = Fulfilled r
    /\ Forall allowedCombination (violations r)
    /\ Forall (fun v => severity v <> NOTICE) (violations r)
    /\ Forall (fun v =>
                 In (protocolRef v)
                   ["CCP-3.1"%string; "CCP-4.1"%string; "CCP-4.2"%string])
         (violations r).
Proof.
  eexists. split; [apply runIntegrityScan_closed|].
  rewrite integrityScan_closed. cbn [fst violations].
  assert (Hall : Forall allowedCombination
                   (flat_map assetFindings events
                    ++ flat_map operatorFindings statuses)).
  { apply Forall_app. split; apply Forall_flat_map_each.
    - exact assetFindings_allowed.
    - exact operatorFindings_allowed. }
  split; [exact Hall|].
  split; (eapply Forall_impl; [|exact Hall]); intros v Hv;
    apply allowedCombination_inv in Hv; tauto.
Qed.

Lemma length_flat_map_le {A B : Type} (f : A -> list B) l :
  (forall x, List.length (f x) <= 1) ->
  List.length (flat_map f l) <= List.length l.
Proof.
  intros H. induction l as [|a l IH]; simpl; [lia|].
  rewrite length_app. specialize (H a). lia.
Qed.

Lemma assetFindings_length event : List.length (assetFindings event) <= 1.
Proof.
  unfold assetFindings.
  destruct (isError event && payloadMissing event); simpl; lia.
Qed.

Lemma operatorFindings_length status :
  List.length (operatorFindings status) <= 1.
Proof.
  unfold operatorFindings.
  operator_cases status;
    simpl; lia.
Qed.

(** C10: the scan of two empty arrays reports no violation, a
    critical-asset count of 0 and a health score of 1; and no report has
    more violations than the two arrays have entries. *)
Theorem empty_scan_and_length_bound clock events statuses :
  (exists r0,
     runIntegrityScan clock [] [] = Fulfilled r0
     /\ violations r0 = []
     /\ criticalAssetCount r0 = 0
     /\ systemHealthScore r0 = 1%float)
  /\ (exists r,
        runIntegrityScan clock events statuses = Fulfilled r
        /\ List.length (violations r)
           <= List.length events + List.length statuses).
Proof.
  split; eexists; (split; [apply runIntegrityScan_closed|]);
    rewrite integrityScan_closed; cbn [fst violations criticalAssetCount
                                         systemHealthScore].
  - repeat split; vm_compute; reflexivity.
  - rewrite length_app.
    pose proof (length_flat_map_le assetFindings events assetFindings_length).
    pose proof (length_flat_map_le operatorFindings statuses
                  operatorFindings_length).
    lia.
Qed.

(** ** The dashboard's scan driver *)


(** ** The mock fixtures *)

(** C1, as the code has it: the scan of the mock fixtures reports three
    violations, CCP-3.1 and CCP-4.1 at CRITICAL and CCP-4.2 at WARNING, a
    critical-asset count of 1 and a health score of 0.80. *)
Theorem mock_scan_report clock (loaded : Clock) :
  exists r,
    runIntegrityScan clock (MOCK_ASSET_EVENTS loaded) MOCK_OPERATOR_STATUSES
    = Fulfilled r
    /\ List.length (violations r) = 3
    /\ map (fun v => (protocolRef v, severity v)) (violations r)
       = [("CCP-3.1"%string, CRITICAL); ("CCP-4.1"%string, CRITICAL);
          ("CCP-4.2"%string, WARNING)]
    /\ map id (violations r)
       = ["ASSET-202"%string; "OP-JOE"%string; "OP-KORE"%string]
    /\ criticalAssetCount r = 1
    /\ systemHealthScore r = twoDecimals 80
    /\ systemHealthScore r = 0.8%float.
Proof.
  eexists. split; [apply runIntegrityScan_closed|].
  rewrite integrityScan_closed.
  cbn [fst violations criticalAssetCount systemHealthScore].
  repeat split; vm_compute; reflexivity.
Qed.

(** ** More on the scan: counts, identifiers, order, clock *)

Lemma criticalViolations_app vs ws :
  criticalViolations (vs ++ ws) = criticalViolations vs ++ criticalViolations ws.
Proof. apply filter_app. Qed.

Lemma assetFindings_unaudited event :
  assetFindings event = if unaudited event then [assetViolation event] else [].
Proof.
  unfold assetFindings, unaudited. now rewrite payloadMissing_absentOrEmpty.
Qed.

Lemma critical_assetFindings events :
  List.length (criticalViolations (flat_map assetFindings events))
  = List.length (filter unaudited events).
Proof.
  induction events as [|e events IH]; simpl; [reflexivity|].
  rewrite criticalViolations_app, length_app, IH, assetFindings_unaudited.
  destruct (unaudited e); reflexivity.
Qed.

Lemma critical_operatorFindings statuses :
  List.length (criticalViolations (flat_map operatorFindings statuses))
  = List.length (filter belowBaselineOnTask statuses).
Proof.
  induction statuses as [|o statuses IH]; simpl; [reflexivity|].
  rewrite criticalViolations_app, length_app, IH.
  unfold operatorFindings, belowBaselineOnTask.
  operator_cases o; reflexivity.
Qed.

Lemma length_assetFindings events :
  List.length (flat_map assetFindings events)
  = List.length (filter unaudited events).
Proof.
  induction events as [|e events IH]; simpl; [reflexivity|].
  rewrite length_app, IH, assetFindings_unaudited.
  destruct (unaudited e); reflexivity.
Qed.

Lemma length_operatorFindings statuses :
  List.length (flat_map operatorFindings statuses)
  = List.length (filter flagged statuses).
Proof.
  induction statuses as [|o statuses IH]; simpl; [reflexivity|].
  rewrite length_app, IH.
  unfold operatorFindings, flagged, operatorRule.
  operator_cases o; reflexivity.
Qed.

(** X1: the CRITICAL violations of a report are as many as the ERROR
    events without audit payload plus the operators below 0.6 that hold a
    task; its violations are as many as those events plus the operators
    that either branch flags. *)
Theorem violation_counts_from_inputs clock events statuses :
  exists r,
    runIntegrityScan clock events statuses = Fulfilled r
    /\ criticalTotal r
       = List.length (filter unaudited events)
         + List.length (filter belowBaselineOnTask statuses)
    /\ List.length (violations r)
       = List.length (filter unaudited events)
         + List.length (filter flagged statuses).
Proof.
  eexists. split; [apply runIntegrityScan_closed|].
  rewrite integrityScan_closed. unfold criticalTotal. cbn [fst violations].
  split.
  - now rewrite criticalViolations_app, length_app,
      critical_assetFindings, critical_operatorFindings.
  - now rewrite length_app, length_assetFindings, length_operatorFindings.
Qed.

Lemma dataIntegrity_assetFindings events :
  filter isDataIntegrity (flat_map assetFindings events)
  = flat_map assetFindings events.
Proof.
  induction events as [|e events IH]; simpl; [reflexivity|].
  rewrite filter_app, IH, assetFindings_unaudited.
  destruct (unaudited e); reflexivity.
Qed.

Lemma dataIntegrity_operatorFindings statuses :
  filter isDataIntegrity (flat_map operatorFindings statuses) = [].
Proof.
  induction statuses as [|o statuses IH]; simpl; [reflexivity|].
  rewrite filter_app, IH, app_nil_r.
  unfold operatorFindings. operator_cases o; reflexivity.
Qed.

Lemma isError_split events :
  List.length (filter isError events)
  = List.length (filter unaudited events) + List.length (filter audited events).
Proof.
  unfold unaudited, audited.
  induction events as [|e events IH]; simpl; [reflexivity|].
  destruct (isError e), (payloadAbsentOrEmpty e); simpl; lia.
Qed.

(** X2: the critical-asset count is the number of DATA_INTEGRITY
    violations plus the number of ERROR events that carry a payload; so it
    is never below the former and never above the number of events. *)
Theorem critical_assets_versus_violations clock events statuses :
  exists r,
    runIntegrityScan clock events statuses = Fulfilled r
    /\ criticalAssetCount r
       = List.length (filter isDataIntegrity (violations r))
         + List.length (filter audited events)
    /\ List.length (filter isDataIntegrity (violations r))
       <= criticalAssetCount r <= List.length events.
Proof.
  eexists. split; [apply runIntegrityScan_closed|].
  rewrite integrityScan_closed. cbn [fst violations criticalAssetCount].
  rewrite filter_app, dataIntegrity_assetFindings,
    dataIntegrity_operatorFindings, app_nil_r, length_assetFindings.
  pose proof (isError_split events) as Hsplit.
  pose proof (filter_length_le isError events) as Hle.
  lia.
Qed.

Lemma ids_assetFindings events :
  map id (flat_map assetFindings events)
  = map assetUuid (filter unaudited events).
Proof.
  induction events as [|e events IH]; simpl; [reflexivity|].
  rewrite map_app, IH, assetFindings_unaudited.
  destruct (unaudited e); reflexivity.
Qed.

Lemma ids_operatorFindings statuses :
  map id (flat_map operatorFindings statuses)
  = map operatorId (filter flagged statuses).
Proof.
  induction statuses as [|o statuses IH]; simpl; [reflexivity|].
  rewrite map_app, IH.
  unfold operatorFindings, flagged, operatorRule.
  operator_cases o; reflexivity.
Qed.

Lemma In_map_filter {A B : Type} (f : A -> B) (p : A -> bool) l y :
  In y (map f (filter p l)) -> In y (map f l).
Proof.
  rewrite !in_map_iff. intros (x & Hx & Hin).
  apply filter_In in Hin. exists x. tauto.
Qed.

Lemma NoDup_map_filter {A B : Type} (f : A -> B) (p : A -> bool) l :
  NoDup (map f l) -> NoDup (map f (filter p l)).
Proof.
  induction l as [|a l IH]; simpl; intros H; [constructor|].
  inversion H as [|? ? Hnotin Hrest]; subst.
  destruct (p a); simpl; [constructor|]; auto.
  intros Hin. apply Hnotin. eapply In_map_filter. exact Hin.
Qed.

Lemma NoDup_app_disjoint {A : Type} (l1 l2 : list A) :
  NoDup (l1 ++ l2) -> forall a, In a l1 -> ~ In a l2.
Proof.
  induction l1 as [|x l1 IH]; simpl; intros H a Ha; [contradiction|].
  inversion H as [|? ? Hnotin Hrest]; subst.
  destruct Ha as [->|Ha]; [|now apply IH].
  intros Hin. apply Hnotin. apply in_or_app. now right.
Qed.

(** X3: every violation carries the identifier of an event or of an
    operator of the input; and when the input identifiers are pairwise
    distinct, so are the keys of the violation rows the page lists. *)
Theorem violation_ids_from_inputs clock events statuses :
  exists r,
    runIntegrityScan clock events statuses = Fulfilled r
    /\ Forall (fun v =>
                 In (id v) (map assetUuid events ++ map operatorId statuses))
         (violations r)
    /\ (NoDup (map assetUuid events ++ map operatorId statuses) ->
        NoDup (map rowKey (map violationRow (violations r)))).
Proof.
  eexists. split; [apply runIntegrityScan_closed|].
  rewrite integrityScan_closed. cbn [fst violations].
  assert (Hids : map id (flat_map assetFindings events
                         ++ flat_map operatorFindings statuses)
                 = map assetUuid (filter unaudited events)
                   ++ map operatorId (filter flagged statuses))
    by now rewrite map_app, ids_assetFindings, ids_operatorFindings.
  split.
  - apply Forall_forall. intros v Hv.
    apply (in_map id) in Hv. rewrite Hids in Hv.
    apply in_app_iff. apply in_app_iff in Hv.
    destruct Hv as [Hv|Hv]; [left|right]; eapply In_map_filter; exact Hv.
  - intros Hnodup.
    rewrite map_map. cbn [violationRow rowKey].
    change (map (fun x : Violation => id x)) with (map id).
    rewrite Hids.
    apply NoDup_app.
    + apply NoDup_map_filter. eapply NoDup_app_remove_r. exact Hnodup.
    + apply NoDup_map_filter. eapply NoDup_app_remove_l. exact Hnodup.
    + intros y Hy Hy'.
      apply (NoDup_app_disjoint _ _ Hnodup y); eapply In_map_filter;
        eassumption.
Qed.

Lemma Permutation_filter_length {A : Type} (p : A -> bool) l l' :
  Permutation l l' -> List.length (filter p l) = List.length (filter p l').
Proof.
  induction 1 as [|x l l' _ IH|x y l|l l' l'' _ IH1 _ IH2]; simpl.
  - reflexivity.
  - destruct (p x); simpl; now rewrite IH.
  - destruct (p x), (p y); reflexivity.
  - now rewrite IH1.
Qed.

(** X4: the order of the inputs does not matter to the outcome: two scans
    of rearranged inputs report the same violations up to their order, the
    same critical-asset count and the same health score. *)
Theorem scan_order_independent clock events events' statuses statuses' :
  Permutation events events' -> Permutation statuses statuses' ->
  exists r r',
    runIntegrityScan clock events statuses = Fulfilled r
    /\ runIntegrityScan clock events' statuses' = Fulfilled r'
    /\ Permutation (violations r) (violations r')
    /\ criticalAssetCount r = criticalAssetCount r'
    /\ systemHealthScore r = systemHealthScore r'.
Proof.
  intros He Hs. do 2 eexists.
  split; [apply runIntegrityScan_closed|].
  split; [apply runIntegrityScan_closed|].
  rewrite !integrityScan_closed.
  cbn [fst violations criticalAssetCount systemHealthScore].
  assert (Hv : Permutation
                 (flat_map assetFindings events
                  ++ flat_map operatorFindings statuses)
                 (flat_map assetFindings events'
                  ++ flat_map operatorFindings statuses')).
  { apply Permutation_app; now apply Permutation_flat_map. }
  split; [exact Hv|].
  split; [now apply Permutation_filter_length|].
  unfold criticalViolations.
  now rewrite (Permutation_filter_length _ _ _ Hv).
Qed.

(** X6: a scan reads the clock three times whatever the size of its
    inputs: the duration is the second reading minus the first and the
    timestamp is the third; under a clock that never runs backwards the
    duration is not negative and the timestamp is not before the end of
    the measured interval. *)
Theorem scan_clock_readings clock events statuses :
  exists r,
    runIntegrityScan clock events statuses = Fulfilled r
    /\ scanDurationMs r = (clock 1%nat - clock 0%nat)%Z
    /\ timestamp r = clock 2%nat
    /\ (forall k,
          snd (integrityScan clock (entryState events statuses)) k
          = clock (3 + k))
    /\ ((forall i j, i <= j -> (clock i <= clock j)%Z) ->
        (0 <= scanDurationMs r)%Z
        /\ (clock 0%nat + scanDurationMs r <= timestamp r)%Z).
Proof.
  eexists. split; [apply runIntegrityScan_closed|].
  rewrite integrityScan_closed. cbn [fst snd scanDurationMs timestamp].
  repeat split; try reflexivity.
  - pose proof (H 0 1 ltac:(lia)). lia.
  - pose proof (H 1 2 ltac:(lia)). lia.
Qed.

(** ** Trust ratings that are not numbers *)

Lemma SFcompare_refl x : x <> S754_nan -> SFcompare x x = Some Eq.
Proof.
  destruct x as [s|s| |s m e]; intros H; cbn [SFcompare];
    try reflexivity; try (destruct s; reflexivity); try contradiction.
  destruct s; rewrite Z.compare_refl, Pos.compare_cont_refl; reflexivity.
Qed.

Lemma is_nan_not_below x y :
  PrimFloat.is_nan x = true -> (x <? y)%float = false.
Proof.
  unfold PrimFloat.is_nan.
  rewrite FloatAxioms.eqb_spec, FloatAxioms.ltb_spec. unfold SFeqb, SFltb.
  destruct (Prim2SF x) as [s|s| |s m e] eqn:Hx;
    try (rewrite SFcompare_refl by discriminate; discriminate).
  reflexivity.
Qed.

(** X7: an operator whose trust rating is NaN is never flagged, with or
    without a task: both comparisons fail, so wherever it stands among the
    operators the report has the violations, the critical-asset count and
    the score of the scan without it. *)
Theorem nan_trust_is_not_flagged clock events before status after :
  PrimFloat.is_nan (trustRating status) = true ->
  exists r r0,
    runIntegrityScan clock events (before ++ status :: after) = Fulfilled r
    /\ runIntegrityScan clock events (before ++ after) = Fulfilled r0
    /\ violations r = violations r0
    /\ criticalAssetCount r = criticalAssetCount r0
    /\ systemHealthScore r = systemHealthScore r0.
Proof.
  intros Hnan.
  assert (Hnone : operatorFindings status = []).
  { unfold operatorFindings.
    now rewrite !(is_nan_not_below _ _ Hnan). }
  assert (Hsame : flat_map operatorFindings (before ++ status :: after)
                  = flat_map operatorFindings (before ++ after)).
  { rewrite !flat_map_app. cbn [flat_map]. now rewrite Hnone. }
  do 2 eexists.
  split; [apply runIntegrityScan_closed|].
  split; [apply runIntegrityScan_closed|].
  rewrite !integrityScan_closed.
  cbn [fst violations systemHealthScore criticalAssetCount].
  rewrite Hsame. repeat split; reflexivity.
Qed.

(** ** The score as a function of the CRITICAL count *)

Lemma scoreFor_zero c : 10 <= c -> scoreFor c = 0%float.
Proof.
  intros H. unfold scoreFor. rewrite healthScore_zero by exact H.
  vm_compute. reflexivity.
Qed.

Lemma scoreFor_clamp c : scoreFor c = scoreFor (Nat.min c 10).
Proof.
  destruct (le_lt_dec 10 c) as [H|H].
  - rewrite Nat.min_r by exact H. now rewrite scoreFor_zero.
  - now rewrite Nat.min_l by lia.
Qed.

Lemma scoreFor_table a b :
  a <= 10 -> b <= 10 ->
  (0 <=? scoreFor a)%float = true
  /\ (scoreFor a <=? 1)%float = true
  /\ (a <= b -> (scoreFor b <=? scoreFor a)%float = true)
  /\ (a < b -> (scoreFor b <? scoreFor a)%float = true).
Proof.
  intros Ha Hb.
  assert (T : forallb
                (fun a =>
                   (0 <=? scoreFor a)%float && (scoreFor a <=? 1)%float
                   && forallb
                        (fun b =>
                           implb (Nat.leb a b) (scoreFor b <=? scoreFor a)%float
                           && implb (Nat.ltb a b) (scoreFor b <? scoreFor a)%float)
                        (seq 0 11))
                (seq 0 11) = true)
    by (vm_compute; reflexivity).
  rewrite forallb_forall in T.
  specialize (T a ltac:(apply in_seq; lia)).
  apply andb_prop in T. destruct T as [T1 T2].
  apply andb_prop in T1. destruct T1 as [T0 T1].
  rewrite forallb_forall in T2.
  specialize (T2 b ltac:(apply in_seq; lia)).
  apply andb_prop in T2. destruct T2 as [Tle Tlt].
  repeat split; try assumption.
  - intros Hab. apply Nat.leb_le in Hab. now rewrite Hab in Tle.
  - intros Hab. apply Nat.ltb_lt in Hab. now rewrite Hab in Tlt.
Qed.

Lemma systemHealthScore_scoreFor clock events statuses :
  exists r,
    runIntegrityScan clock events statuses = Fulfilled r
    /\ systemHealthScore r = scoreFor (countCritical (violations r)).
Proof.
  eexists. split; [apply runIntegrityScan_closed|].
  rewrite integrityScan_closed. cbn [fst violations systemHealthScore].
  now rewrite countCritical_filter.
Qed.

(** X5: the health score of every report lies between 0 and 1; of two
    reports, the one with more CRITICAL violations never has the higher
    score, and it has a strictly lower one as long as the other has fewer
    than ten. *)
Theorem health_score_monotone clock events1 statuses1 events2 statuses2 :
  exists r1 r2,
    runIntegrityScan clock events1 statuses1 = Fulfilled r1
    /\ runIntegrityScan clock events2 statuses2 = Fulfilled r2
    /\ (0 <=? systemHealthScore r1)%float = true
    /\ (systemHealthScore r1 <=? 1)%float = true
    /\ (countCritical (violations r1) <= countCritical (violations r2) ->
        (systemHealthScore r2 <=? systemHealthScore r1)%float = true)
    /\ (countCritical (violations r1) < countCritical (violations r2) -> countCritical (violations r1) < 10 ->
        (systemHealthScore r2 <? systemHealthScore r1)%float = true).
Proof.
  destruct (systemHealthScore_scoreFor clock events1 statuses1)
    as (r1 & Hr1 & Hs1).
  destruct (systemHealthScore_scoreFor clock events2 statuses2)
    as (r2 & Hr2 & Hs2).
  exists r1, r2. split; [exact Hr1|]. split; [exact Hr2|].
  rewrite Hs1, Hs2.
  rewrite (scoreFor_clamp (countCritical (violations r1))),
    (scoreFor_clamp (countCritical (violations r2))).
  destruct (scoreFor_table (Nat.min (countCritical (violations r1)) 10)
              (Nat.min (countCritical (violations r2)) 10))
    as (H0 & H1 & Hle & Hlt); try lia.
  repeat split; try assumption.
  - intros H. apply Hle. lia.
  - intros H H'. apply Hlt. lia.
Qed.

(** ** The health tile *)

(** X8: the colour of the health score follows the number of CRITICAL
    violations: green up to two, yellow for three and four, red from five
    on. *)
Theorem health_color_bands clock events statuses :
  exists r,
    runIntegrityScan clock events statuses = Fulfilled r
    /\ healthColor (renderReport r)
       = if Nat.leb (countCritical (violations r)) 2 then "text-green-500"%string
         else if Nat.leb (countCritical (violations r)) 4 then "text-yellow-500"%string
         else "text-red-500"%string.
Proof.
  destruct (systemHealthScore_scoreFor clock events statuses)
    as (r & Hr & Hs).
  exists r. split; [exact Hr|].
  cbn [renderReport healthColor]. rewrite Hs.
  generalize (countCritical (violations r)). intros c.
  destruct (le_lt_dec 10 c) as [H|H].
  - rewrite scoreFor_zero by exact H.
    destruct (Nat.leb_spec c 2); [lia|].
    destruct (Nat.leb_spec c 4); [lia|].
    vm_compute. reflexivity.
  - do 10 (destruct c as [|c]; [vm_compute; reflexivity|]). lia.
Qed.

(** X9: the percentage shown for the health score is 100 minus ten per
    CRITICAL violation, and 0 from ten on, written without decimals. *)
Theorem health_percent_text clock events statuses :
  exists r,
    runIntegrityScan clock events statuses = Fulfilled r
    /\ healthPercent (renderReport r)
       = (decimalOf (expectedHundredths (countCritical (violations r))) ++ "%")%string.
Proof.
  destruct (systemHealthScore_scoreFor clock events statuses)
    as (r & Hr & Hs).
  exists r. split; [exact Hr|].
  cbn [renderReport healthPercent]. rewrite Hs. f_equal.
  generalize (countCritical (violations r)). intros c.
  destruct (le_lt_dec 10 c) as [H|H].
  - rewrite scoreFor_zero by exact H.
    unfold expectedHundredths. rewrite Z.max_l by lia.
    vm_compute. reflexivity.
  - do 10 (destruct c as [|c]; [vm_compute; reflexivity|]). lia.
Qed.

(** ** The protocol-status card and the violation rows *)

Lemma someWithProtocol_app ref vs ws :
  someWithProtocol ref (vs ++ ws)
  = someWithProtocol ref vs || someWithProtocol ref ws.
Proof. apply existsb_app. Qed.

Lemma someWithProtocol_flat_map {A : Type} ref (f : A -> list Violation)
    (p : A -> bool) l :
  (forall x, someWithProtocol ref (f x) = p x) ->
  someWithProtocol ref (flat_map f l) = existsb p l.
Proof.
  intros H. induction l as [|a l IH]; simpl; [reflexivity|].
  now rewrite someWithProtocol_app, H, IH.
Qed.

Lemma someWithProtocol_assetFindings ref event :
  someWithProtocol ref (assetFindings event)
  = unaudited event && String.eqb "CCP-3.1" ref.
Proof.
  rewrite assetFindings_unaudited.
  destruct (unaudited event); cbn [someWithProtocol existsb andb];
    [|reflexivity].
  now rewrite orb_false_r.
Qed.

Lemma someWithProtocol_operatorFindings ref status :
  someWithProtocol ref (operatorFindings status)
  = belowBaselineOnTask status && String.eqb "CCP-4.1" ref
    || negb (belowBaselineOnTask status) && belowStableIdle status
       && String.eqb "CCP-4.2" ref.
Proof.
  unfold operatorFindings, belowBaselineOnTask, belowStableIdle.
  operator_cases status; cbn [someWithProtocol existsb andb orb negb];
    rewrite ?orb_false_r; reflexivity.
Qed.

Lemma belowStableIdle_not_onTask status :
  belowStableIdle status = true -> belowBaselineOnTask status = false.
Proof.
  unfold belowStableIdle, belowBaselineOnTask.
  destruct (currentTaskId status); cbn [isNull negb];
    rewrite ?andb_false_r; [discriminate|reflexivity].
Qed.

(** X10: the three lines of the protocol-status card, read off the scanned
    inputs: CCP-3.1 is VIOLATED exactly when some ERROR event lacks its
    payload, CCP-4.1 exactly when some operator below 0.6 holds a task,
    and CCP-4.2 shows WARNING exactly when some idle operator is below
    0.8; otherwise the line is COMPLIANT. *)
Theorem protocol_status_from_inputs clock events statuses :
  exists r,
    runIntegrityScan clock events statuses = Fulfilled r
    /\ protocolStatus (renderReport r)
       = [ ("CCP-3.1"%string,
            if existsb unaudited events
            then {| variant := "destructive"; badgeText := "VIOLATED" |}
            else compliantBadge);
           ("CCP-4.1"%string,
            if existsb belowBaselineOnTask statuses
            then {| variant := "destructive"; badgeText := "VIOLATED" |}
            else compliantBadge);
           ("CCP-4.2"%string,
            if existsb belowStableIdle statuses
            then {| variant := "secondary"; badgeText := "WARNING" |}
            else compliantBadge) ].
Proof.
  eexists. split; [apply runIntegrityScan_closed|].
  rewrite integrityScan_closed.
  cbn [fst renderReport protocolStatus violations].
  unfold protocolBadge.
  rewrite !someWithProtocol_app.
  rewrite (someWithProtocol_flat_map "CCP-3.1" assetFindings unaudited),
    (someWithProtocol_flat_map "CCP-3.1" operatorFindings (fun _ => false)),
    (someWithProtocol_flat_map "CCP-4.1" assetFindings (fun _ => false)),
    (someWithProtocol_flat_map "CCP-4.1" operatorFindings belowBaselineOnTask),
    (someWithProtocol_flat_map "CCP-4.2" assetFindings (fun _ => false)),
    (someWithProtocol_flat_map "CCP-4.2" operatorFindings belowStableIdle).
  - assert (Hnone : forall (A : Type) (l : list A),
               existsb (fun _ => false) l = false)
      by (intros A l; induction l; simpl; auto).
    rewrite !Hnone, !orb_false_r. cbn [orb].
    destruct (existsb unaudited events),
      (existsb belowBaselineOnTask statuses),
      (existsb belowStableIdle statuses); reflexivity.
  - intros x. rewrite someWithProtocol_operatorFindings.
    cbn [String.eqb Ascii.eqb Bool.eqb andb].
    rewrite ?andb_false_r, ?andb_true_r. cbn [orb].
    destruct (belowStableIdle x) eqn:E.
    + now rewrite (belowStableIdle_not_onTask _ E).
    + now rewrite andb_false_r.
  - intros x. rewrite someWithProtocol_assetFindings.
    cbn [String.eqb Ascii.eqb Bool.eqb]. now rewrite andb_false_r.
  - intros x. rewrite someWithProtocol_operatorFindings.
    cbn [String.eqb Ascii.eqb Bool.eqb andb].
    rewrite ?andb_false_r, ?andb_true_r. now rewrite orb_false_r.
  - intros x. rewrite someWithProtocol_assetFindings.
    cbn [String.eqb Ascii.eqb Bool.eqb]. now rewrite andb_false_r.
  - intros x. rewrite someWithProtocol_operatorFindings.
    cbn [String.eqb Ascii.eqb Bool.eqb andb].
    now rewrite ?andb_false_r.
  - intros x. rewrite someWithProtocol_assetFindings.
    cbn [String.eqb Ascii.eqb Bool.eqb]. now rewrite andb_true_r.
Qed.

Lemma scan_violations_allowed events statuses :
  Forall allowedCombination
    (flat_map assetFindings events ++ flat_map operatorFindings statuses).
Proof.
  apply Forall_app. split; apply Forall_flat_map_each.
  - exact assetFindings_allowed.
  - exact operatorFindings_allowed.
Qed.

Lemma someWithProtocol_In v vs :
  In v vs -> someWithProtocol (protocolRef v) vs = true.
Proof.
  intros H. apply existsb_exists. exists v. split; [exact H|].
  apply String.eqb_refl.
Qed.

(** X11: on the report of a scan the card and the list agree: the line of
    a violation's clause carries the variant of that violation's severity
    badge and is not COMPLIANT; and the three lines are all COMPLIANT
    exactly when the list is replaced by the compliance notice. *)
Theorem protocol_status_matches_rows clock events statuses :
  exists r,
    runIntegrityScan clock events statuses = Fulfilled r
    /\ (forall v,
          In v (violations r) ->
          exists b,
            In (protocolRef v, b) (protocolStatus (renderReport r))
            /\ variant b = variant (rowBadge (violationRow v))
            /\ badgeText b <> "COMPLIANT"%string)
    /\ (violationsArea (renderReport r) = CompliantNotice
        <-> Forall (fun line => snd line = compliantBadge)
              (protocolStatus (renderReport r))).
Proof.
  eexists. split; [apply runIntegrityScan_closed|].
  rewrite integrityScan_closed. cbn [fst].
  set (r := Build_IntegrityReport _ _ _ _ _).
  pose proof (scan_violations_allowed events statuses) as Hall.
  change (flat_map assetFindings events ++ flat_map operatorFindings statuses)
    with (violations r) in Hall.
  assert (Hline : forall v,
            In v (violations r) ->
            exists b,
              In (protocolRef v, b) (protocolStatus (renderReport r))
              /\ variant b = variant (rowBadge (violationRow v))
              /\ badgeText b <> "COMPLIANT"%string).
  { intros v Hv.
    pose proof (someWithProtocol_In v _ Hv) as Hsome.
    rewrite Forall_forall in Hall. specialize (Hall v Hv).
    cbn [renderReport protocolStatus violationRow rowBadge variant].
    unfold protocolBadge.
    destruct Hall as [H|[H|H]]; inversion H as [[Ht Hs Hp]];
      rewrite Hp in Hsome |- *; rewrite Hs, Hsome.
    - exists {| variant := "destructive"; badgeText := "VIOLATED" |}.
      split; [left; reflexivity|]. split; [reflexivity|discriminate].
    - exists {| variant := "destructive"; badgeText := "VIOLATED" |}.
      split; [right; left; reflexivity|]. split; [reflexivity|discriminate].
    - exists {| variant := "secondary"; badgeText := "WARNING" |}.
      split; [right; right; left; reflexivity|].
      split; [reflexivity|discriminate]. }
  split; [exact Hline|].
  split.
  - intros Hnotice.
    assert (Hnil : violations r = []).
    { cbn [renderReport violationsArea] in Hnotice.
      destruct (violations r); [reflexivity|discriminate]. }
    cbn [renderReport protocolStatus]. rewrite Hnil.
    repeat constructor.
  - intros Hcompliant.
    cbn [renderReport violationsArea].
    destruct (violations r) as [|v vs] eqn:Hvs; [reflexivity|exfalso].
    destruct (Hline v (or_introl eq_refl)) as (b & Hin & _ & Hb).
    rewrite Forall_forall in Hcompliant.
    specialize (Hcompliant _ Hin). cbn [snd] in Hcompliant.
    apply Hb. now rewrite Hcompliant.
Qed.

Lemma severity_variant_destructive sev :
  String.eqb (getSeverityVariant sev) "destructive"
  = Severity_eqb sev CRITICAL.
Proof. destruct sev; reflexivity. Qed.

Lemma destructive_rows vs :
  List.length
    (filter (fun row => String.eqb (variant (rowBadge row)) "destructive")
       (map violationRow vs))
  = List.length (filter (fun v => Severity_eqb (severity v) CRITICAL) vs).
Proof.
  induction vs as [|v vs IH]; [reflexivity|].
  cbn [map filter].
  change (variant (rowBadge (violationRow v)))
    with (getSeverityVariant (severity v)).
  rewrite severity_variant_destructive.
  destruct (Severity_eqb (severity v) CRITICAL); cbn [List.length];
    now rewrite IH.
Qed.

(** X12: the rows listed for a scan: as many as the total shown; every
    severity badge is destructive or secondary, never the outline of
    NOTICE; the rows with a destructive badge are as many as the
    critical-violations figure; and no type label keeps an underscore. *)
Theorem violation_rows_of_a_scan clock events statuses :
  exists r,
    runIntegrityScan clock events statuses = Fulfilled r
    /\ match violationsArea (renderReport r) with
       | CompliantNotice =>
           totalViolations (renderReport r) = 0
           /\ criticalViolationCount (renderReport r) = 0
       | ViolationRows rows =>
           List.length rows = totalViolations (renderReport r)
           /\ 0 < List.length rows
           /\ Forall (fun row =>
                        variant (rowBadge row) = "destructive"%string
                        \/ variant (rowBadge row) = "secondary"%string) rows
           /\ List.length
                (filter (fun row =>
                           String.eqb (variant (rowBadge row)) "destructive")
                   rows)
              = criticalViolationCount (renderReport r)
           /\ Forall (fun row => String.index 0 "_" (rowType row) = None) rows
       end.
Proof.
  eexists. split; [apply runIntegrityScan_closed|].
  rewrite integrityScan_closed. cbn [fst].
  set (r := Build_IntegrityReport _ _ _ _ _).
  pose proof (scan_violations_allowed events statuses) as Hall.
  change (flat_map assetFindings events ++ flat_map operatorFindings statuses)
    with (violations r) in Hall.
  cbn [renderReport violationsArea totalViolations criticalViolationCount].
  destruct (violations r) as [|v vs] eqn:Hvs; [split; reflexivity|].
  cbn [List.length Nat.eqb]. rewrite <- Hvs in Hall |- *.
  split; [now rewrite length_map, Hvs|].
  split; [rewrite length_map, Hvs; cbn; lia|].
  split; [|split].
  - apply Forall_map. eapply Forall_impl; [|exact Hall].
    intros w Hw. cbn [violationRow rowBadge variant].
    destruct Hw as [H|[H|H]]; inversion H as [[Ht Hs Hp]]; rewrite Hs;
      cbn; auto.
  - apply destructive_rows.
  - apply Forall_map. apply Forall_forall. intros w _.
    cbn [violationRow rowType]. destruct (type w); reflexivity.
Qed.

Lemma existsb_filter_nil {A : Type} (p : A -> bool) l :
  existsb p l = false <-> filter p l = [].
Proof.
  induction l as [|a l IH]; simpl; [tauto|].
  destruct (p a); simpl; [split; discriminate|exact IH].
Qed.

Lemma flagged_branches status :
  flagged status = belowBaselineOnTask status || belowStableIdle status.
Proof.
  unfold flagged, operatorRule, belowBaselineOnTask, belowStableIdle.
  operator_cases status; reflexivity.
Qed.

(** X13: the compliance notice replaces the list exactly when no ERROR
    event lacks its payload and neither branch flags an operator; the
    health tile then shows a green 100% and the critical-violations figure
    is 0, while the critical-assets tile still counts the ERROR events
    that carry a payload. *)
Theorem compliance_notice clock events statuses :
  exists r,
    runIntegrityScan clock events statuses = Fulfilled r
    /\ (violationsArea (renderReport r) = CompliantNotice
        <-> existsb unaudited events = false
            /\ existsb flagged statuses = false)
    /\ (violationsArea (renderReport r) = CompliantNotice ->
        healthColor (renderReport r) = "text-green-500"%string
        /\ healthPercent (renderReport r) = "100%"%string
        /\ criticalViolationCount (renderReport r) = 0
        /\ criticalAssets (renderReport r) = List.length (filter audited events)).
Proof.
  eexists. split; [apply runIntegrityScan_closed|].
  rewrite integrityScan_closed. cbn [fst].
  set (vs := flat_map assetFindings events ++ flat_map operatorFindings statuses).
  cbn [renderReport violationsArea healthColor healthPercent
         criticalViolationCount criticalAssets violations systemHealthScore
         criticalAssetCount].
  assert (Hlen : List.length vs
                 = List.length (filter unaudited events)
                   + List.length (filter flagged statuses))
    by (unfold vs;
        now rewrite length_app, length_assetFindings, length_operatorFindings).
  assert (Hiff : (if Nat.eqb (List.length vs) 0 then CompliantNotice
                  else ViolationRows (map violationRow vs)) = CompliantNotice
                 <-> existsb unaudited events = false
                     /\ existsb flagged statuses = false).
  { rewrite !existsb_filter_nil.
    destruct (filter unaudited events) as [|e es];
      destruct (filter flagged statuses) as [|o os];
      cbn [List.length Nat.add] in Hlen; rewrite Hlen; cbn [Nat.eqb];
      split; try tauto; try discriminate;
      intros [H1 H2]; discriminate. }
  split; [exact Hiff|].
  intros Hnotice. apply Hiff in Hnotice. destruct Hnotice as [Hu Hf].
  apply existsb_filter_nil in Hu. apply existsb_filter_nil in Hf.
  assert (Hvs : vs = []).
  { rewrite Hu, Hf in Hlen. now apply length_zero_iff_nil. }
  rewrite Hvs.
  pose proof (isError_split events) as Hsplit. rewrite Hu in Hsplit.
  repeat split; try (vm_compute; reflexivity).
  exact Hsplit.
Qed.

(** ** The page over time *)

Lemma executeScanWith_split engine d :
  executeScanWith engine d
  = executeScan_resume (engine (pageClock d)) (executeScan_begin d).
Proof.
  unfold executeScanWith, awaitEngine, executeScan_resume, executeScan_begin.
  change (pageClock (setIsScanning true d)) with (pageClock d).
  destruct (engine (pageClock d)) as [[r|reason] c]; reflexivity.
Qed.

Lemma session_invariant clock evs :
  awaiting (handleAll (mountedSession clock) evs) <= 1
  /\ (isScanning (shown (handleAll (mountedSession clock) evs)) = true
      <-> awaiting (handleAll (mountedSession clock) evs) = 1).
Proof.
  unfold handleAll.
  assert (Hgen : forall evs s,
            awaiting s <= 1 /\ (isScanning (shown s) = true <-> awaiting s = 1) ->
            awaiting (fold_left handle evs s) <= 1
            /\ (isScanning (shown (fold_left handle evs s)) = true
                <-> awaiting (fold_left handle evs s) = 1)).
  { clear evs. induction evs as [|ev evs IH]; intros s Hs; [exact Hs|].
    cbn [fold_left]. apply IH.
    destruct Hs as [Hle Hiff].
    destruct ev as [|settled]; cbn [handle render buttonDisabled].
    - assert (Hcase : isScanning (shown s) = true
                      \/ isScanning (shown s) = false)
        by (destruct (isScanning (shown s)); auto).
      destruct Hcase as [Hscan|Hscan]; rewrite Hscan; cbv iota.
      + split; assumption.
      + cbn [awaiting shown executeScan_begin setIsScanning isScanning].
        assert (awaiting s = 0).
        { destruct (awaiting s) as [|[|k]]; try lia.
          destruct Hiff as [_ Hiff]. specialize (Hiff eq_refl).
          rewrite Hscan in Hiff. discriminate. }
        split; [lia|]. split; intros _; [lia|reflexivity].
    - assert (Hcase : awaiting s = 0 \/ awaiting s = 1) by lia.
      destruct Hcase as [Hk|Hk]; rewrite Hk; cbv iota.
      + split; assumption.
      + cbn [awaiting shown executeScan_resume setIsScanning isScanning].
        split; [lia|]. split; intros H; [discriminate|lia]. }
  apply Hgen. cbn. split; [lia|]. split; reflexivity.
Qed.

(** X14: from mount on, through any clicks and settlements, at most one
    scan is awaited and the button is disabled exactly while one is: a
    click then changes nothing; when the awaited scan is fulfilled the
    page shows its report and the button is enabled again; when it is
    rejected the body stays as it was, the console gets the failure and
    the button is enabled again. *)
Theorem one_scan_at_a_time clock evs :
  let s := handleAll (mountedSession clock) evs in
  awaiting s <= 1
  /\ (buttonDisabled (render (shown s)) = true <-> awaiting s = 1)
  /\ (buttonDisabled (render (shown s)) = true -> handle s ClickRunScan = s)
  /\ (buttonDisabled (render (shown s)) = true ->
      forall r c,
        let s' := handle s (EngineSettles (Fulfilled r, c)) in
        body (render (shown s')) = Loaded (renderReport r)
        /\ buttonDisabled (render (shown s')) = false
        /\ awaiting s' = 0)
  /\ (buttonDisabled (render (shown s)) = true ->
      forall reason c,
        let s' := handle s (EngineSettles (Rejected reason, c)) in
        body (render (shown s')) = body (render (shown s))
        /\ console (shown s')
           = console (shown s) ++ [("Scan failed:"%string, reason)]
        /\ buttonDisabled (render (shown s')) = false
        /\ awaiting s' = 0).
Proof.
  intros s. destruct (session_invariant clock evs) as [Hle Hiff].
  fold s in Hle, Hiff. cbn [render buttonDisabled].
  split; [exact Hle|]. split; [exact Hiff|].
  split; [|split].
  - intros Hdis. cbn [handle render buttonDisabled]. now rewrite Hdis.
  - intros Hdis r c. apply Hiff in Hdis.
    cbn [handle]. rewrite Hdis. cbn. repeat split.
  - intros Hdis reason c. apply Hiff in Hdis.
    cbn [handle]. rewrite Hdis. cbn. repeat split.
Qed.

(** X15: clicks and failed scans never change the report on the page: as
    long as no scan is fulfilled, the body is what it was; from mount on
    that is the initializing indicator, no error being shown. *)
Theorem report_kept_without_success clock s evs :
  existsb isFulfilled evs = false ->
  report (shown (handleAll s evs)) = report (shown s)
  /\ body (render (shown (handleAll s evs))) = body (render (shown s))
  /\ body (render (shown (handleAll (mountedSession clock) evs)))
     = Initializing.
Proof.
  intros Hnone.
  assert (Hgen : forall evs s,
            existsb isFulfilled evs = false ->
            report (shown (handleAll s evs)) = report (shown s)).
  { clear. unfold handleAll.
    induction evs as [|ev evs IH]; intros s Hnone; [reflexivity|].
    cbn [existsb] in Hnone. apply orb_false_elim in Hnone.
    destruct Hnone as [Hev Hnone].
    cbn [fold_left]. rewrite (IH _ Hnone).
    destruct ev as [|[[r|reason] c]]; cbn [handle]; try discriminate.
    - destruct (buttonDisabled (render (shown s))); reflexivity.
    - destruct (awaiting s); reflexivity. }
  split; [now apply Hgen|].
  split; cbn [render body]; now rewrite Hgen.
Qed.

End Engine.

(** ** The statements at concrete inputs *)

(** An ERROR event that carries a payload is counted and not flagged. *)
Lemma asset_pass_counts_and_flags_witness :
  statusCode auditedError = ERROR
  /\ payloadAbsentOrEmpty auditedError = false
  /\ exists r1,
       runIntegrityScan (fun _ => EmptyString) (fun _ => 0%Z) [auditedError] []
       = Fulfilled r1
       /\ criticalAssetCount r1 = 1 /\ violations r1 = [].
Proof.
  split; [reflexivity|]. split; [reflexivity|].
  destruct (asset_pass_counts_and_flags (fun _ => EmptyString) (fun _ => 0%Z)
              [auditedError] [])
    as (r & _ & _ & _ & _ & _ & Hcounted & _).
  apply Hcounted; reflexivity.
Defined.

(** An idle operator with trust 0.5 gets the WARNING of CCP-4.2. *)
Lemma operator_pass_rule_witness :
  (trustRating idleLowTrust <? 0.6)%float = true
  /\ currentTaskId idleLowTrust = None
  /\ operatorSignatures idleLowTrust
     = [(operatorId idleLowTrust, PROTOCOL_BREACH, WARNING, "CCP-4.2"%string)].
Proof.
  split; [reflexivity|]. split; [reflexivity|].
  destruct (operator_pass_rule (fun _ => EmptyString) (fun _ => 0%Z) [] [])
    as (r & _ & _ & _ & _ & Hidle & _).
  apply Hidle; reflexivity.
Defined.

(** Ten unaudited ERROR events and an idle operator below 0.8 give ten
    CRITICAL violations and a WARNING, and score 0. *)
Lemma health_score_formula_witness :
  exists r,
    runIntegrityScan (fun _ => EmptyString) (fun _ => 0%Z)
      (repeat unauditedError 10) [idleLowTrust] = Fulfilled r
    /\ List.length (violations r) = 11
    /\ 10 <= countCritical (violations r)
    /\ systemHealthScore r = 0%float.
Proof.
  destruct (health_score_formula (fun _ => EmptyString) (fun _ => 0%Z)
              (repeat unauditedError 10) [idleLowTrust])
    as (r & Hr & _ & Hten & _).
  exists r. split; [exact Hr|].
  assert (Hlen : List.length (violations r) = 11)
    by (vm_compute in Hr; injection Hr as <-; reflexivity).
  assert (Hc : 10 <= countCritical (violations r)).
  { vm_compute in Hr. injection Hr as <-. vm_compute. apply le_n. }
  split; [exact Hlen|]. split; [exact Hc|exact (Hten Hc)].
Defined.

(** The scan of the mock fixtures does not report exactly two violations:
    it reports three. *)
Lemma mock_scan_not_two_violations :
  ~ (exists r,
       runIntegrityScan (fun _ => EmptyString) (fun _ => 0%Z)
         (MOCK_ASSET_EVENTS (fun _ => 0%Z)) MOCK_OPERATOR_STATUSES = Fulfilled r
       /\ List.length (violations r) = 2).
Proof.
  intros (r & Hr & Hlen).
  vm_compute in Hr. injection Hr as <-.
  discriminate Hlen.
Qed.

(** ** The further statements at concrete inputs *)

(** The identifiers of the mock fixtures are distinct, and so are the keys
    of the three rows. *)
Lemma violation_ids_from_inputs_witness :
  exists r,
    runIntegrityScan (fun _ => EmptyString) tickingClock
      (MOCK_ASSET_EVENTS tickingClock) MOCK_OPERATOR_STATUSES = Fulfilled r
    /\ NoDup (map assetUuid (MOCK_ASSET_EVENTS tickingClock)
              ++ map operatorId MOCK_OPERATOR_STATUSES)
    /\ NoDup (map rowKey (map violationRow (violations r))).
Proof.
  destruct (violation_ids_from_inputs (fun _ => EmptyString) tickingClock
              (MOCK_ASSET_EVENTS tickingClock) MOCK_OPERATOR_STATUSES)
    as (r & Hr & _ & Hkeys).
  assert (Hdistinct : NoDup (map assetUuid (MOCK_ASSET_EVENTS tickingClock)
                             ++ map operatorId MOCK_OPERATOR_STATUSES)).
  { vm_compute.
    repeat (apply NoDup_cons;
            [cbn [In]; intros H; decompose [or] H; try discriminate;
             assumption|]).
    apply NoDup_nil. }
  exists r. split; [exact Hr|]. split; [exact Hdistinct|exact (Hkeys Hdistinct)].
Defined.

(** Two events scanned in either order. *)
Lemma scan_order_independent_witness :
  Permutation [auditedError; unauditedError] [unauditedError; auditedError]
  /\ exists r r',
       runIntegrityScan (fun _ => EmptyString) tickingClock
         [auditedError; unauditedError] [idleLowTrust] = Fulfilled r
       /\ runIntegrityScan (fun _ => EmptyString) tickingClock
            [unauditedError; auditedError] [idleLowTrust] = Fulfilled r'
       /\ Permutation (violations r) (violations r')
       /\ criticalAssetCount r = criticalAssetCount r'
       /\ systemHealthScore r = systemHealthScore r'.
Proof.
  split; [apply perm_swap|].
  apply scan_order_independent; [apply perm_swap|apply Permutation_refl].
Defined.

(** Three WARNINGs leave the score above that of one CRITICAL violation. *)
Lemma health_score_monotone_witness :
  exists r1 r2,
    runIntegrityScan (fun _ => EmptyString) tickingClock []
      [idleLowTrust; idleLowTrust; idleLowTrust] = Fulfilled r1
    /\ runIntegrityScan (fun _ => EmptyString) tickingClock
         [unauditedError] [] = Fulfilled r2
    /\ List.length (violations r1) = 3
    /\ countCritical (violations r1) < countCritical (violations r2)
    /\ countCritical (violations r1) < 10
    /\ (systemHealthScore r2 <? systemHealthScore r1)%float = true.
Proof.
  destruct (health_score_monotone (fun _ => EmptyString) tickingClock
              [] [idleLowTrust; idleLowTrust; idleLowTrust]
              [unauditedError] [])
    as (r1 & r2 & Hr1 & Hr2 & _ & _ & _ & Hlt).
  exists r1, r2. split; [exact Hr1|]. split; [exact Hr2|].
  assert (Hlen : List.length (violations r1) = 3)
    by (vm_compute in Hr1; injection Hr1 as <-; reflexivity).
  assert (H1 : countCritical (violations r1) = 0)
    by (vm_compute in Hr1; injection Hr1 as <-; reflexivity).
  assert (H2 : countCritical (violations r2) = 1)
    by (vm_compute in Hr2; injection Hr2 as <-; reflexivity).
  assert (Hless : countCritical (violations r1) < countCritical (violations r2))
    by lia.
  assert (Hten : countCritical (violations r1) < 10) by lia.
  split; [exact Hlen|]. split; [exact Hless|].
  split; [exact Hten|exact (Hlt Hless Hten)].
Defined.

(** Under a clock that ticks once a reading the duration is not negative. *)
Lemma scan_clock_readings_witness :
  (forall i j, i <= j -> (tickingClock i <= tickingClock j)%Z)
  /\ exists r,
       runIntegrityScan (fun _ => EmptyString) tickingClock [] []
       = Fulfilled r
       /\ (0 <= scanDurationMs r)%Z
       /\ (tickingClock 0%nat + scanDurationMs r <= timestamp r)%Z.
Proof.
  assert (Hmono : forall i j, i <= j -> (tickingClock i <= tickingClock j)%Z)
    by (intros i j Hij; unfold tickingClock; lia).
  split; [exact Hmono|].
  destruct (scan_clock_readings (fun _ => EmptyString) tickingClock [] [])
    as (r & Hr & _ & _ & _ & Hclock).
  exists r. split; [exact Hr|exact (Hclock Hmono)].
Defined.

(** An operator on a task whose trust rating is NaN, between flagged
    operators. *)
Lemma nan_trust_is_not_flagged_witness :
  PrimFloat.is_nan (trustRating unratedOperator) = true
  /\ exists r r0,
       runIntegrityScan (fun _ => EmptyString) tickingClock [unauditedError]
         ([idleLowTrust] ++ unratedOperator :: MOCK_OPERATOR_STATUSES)
       = Fulfilled r
       /\ runIntegrityScan (fun _ => EmptyString) tickingClock [unauditedError]
            ([idleLowTrust] ++ MOCK_OPERATOR_STATUSES)
          = Fulfilled r0
       /\ violations r = violations r0
       /\ criticalAssetCount r = criticalAssetCount r0
       /\ systemHealthScore r = systemHealthScore r0.
Proof.
  split; [reflexivity|].
  apply nan_trust_is_not_flagged. reflexivity.
Defined.

(** The line of CCP-3.1 for an unaudited ERROR event. *)
Lemma protocol_status_matches_rows_witness :
  exists r v,
    runIntegrityScan (fun _ => EmptyString) tickingClock [unauditedError] []
    = Fulfilled r
    /\ In v (violations r)
    /\ exists b,
         In (protocolRef v, b)
           (protocolStatus
              (renderReport (fun _ => EmptyString) (fun _ => EmptyString) r))
         /\ variant b = "destructive"%string
         /\ badgeText b <> "COMPLIANT"%string.
Proof.
  destruct (protocol_status_matches_rows (fun _ => EmptyString)
              (fun _ => EmptyString) tickingClock [unauditedError] [])
    as (r & Hr & Hrows & _).
  exists r, (assetViolation unauditedError).
  split; [exact Hr|].
  assert (Hin : In (assetViolation unauditedError) (violations r)).
  { vm_compute in Hr. injection Hr as <-. left. reflexivity. }
  split; [exact Hin|]. exact (Hrows _ Hin).
Defined.

(** An ERROR event with its payload: compliant, and one critical asset. *)
Lemma compliance_notice_witness :
  exists r,
    runIntegrityScan (fun _ => EmptyString) tickingClock [auditedError] []
    = Fulfilled r
    /\ violationsArea
         (renderReport (fun _ => EmptyString) (fun _ => EmptyString) r)
       = CompliantNotice
    /\ healthPercent
         (renderReport (fun _ => EmptyString) (fun _ => EmptyString) r)
       = "100%"%string
    /\ criticalAssets
         (renderReport (fun _ => EmptyString) (fun _ => EmptyString) r)
       = 1.
Proof.
  destruct (compliance_notice (fun _ => EmptyString) (fun _ => EmptyString)
              tickingClock [auditedError] [])
    as (r & Hr & Hiff & Hview).
  exists r. split; [exact Hr|].
  assert (Hnotice : violationsArea
                      (renderReport (fun _ => EmptyString)
                         (fun _ => EmptyString) r) = CompliantNotice)
    by (apply Hiff; split; reflexivity).
  split; [exact Hnotice|].
  destruct (Hview Hnotice) as (_ & Hpercent & _ & Hassets).
  split; [exact Hpercent|exact Hassets].
Defined.

(** Right after mount the button is disabled and a click changes nothing. *)
Lemma one_scan_at_a_time_witness :
  buttonDisabled
    (render (fun _ => EmptyString) (fun _ => EmptyString)
       (shown (mountedSession tickingClock))) = true
  /\ handle (fun _ => EmptyString) (fun _ => EmptyString)
       (mountedSession tickingClock) ClickRunScan
     = mountedSession tickingClock.
Proof.
  split; [reflexivity|].
  destruct (one_scan_at_a_time (fun _ => EmptyString) (fun _ => EmptyString)
              tickingClock [])
    as (_ & _ & Hclick & _).
  apply Hclick. reflexivity.
Defined.

(** A click that is ignored and a scan that fails leave the page
    initializing. *)
Lemma report_kept_without_success_witness :
  existsb isFulfilled
    [ClickRunScan; EngineSettles (Rejected "engine unavailable", tickingClock)]
  = false
  /\ body
       (render (fun _ => EmptyString) (fun _ => EmptyString)
          (shown
             (handleAll (fun _ => EmptyString) (fun _ => EmptyString)
                (mountedSession tickingClock)
                [ClickRunScan;
                 EngineSettles (Rejected "engine unavailable", tickingClock)])))
     = Initializing.
Proof.
  split; [reflexivity|].
  apply (report_kept_without_success (fun _ => EmptyString)
           (fun _ => EmptyString) tickingClock (mountedSession tickingClock)).
  reflexivity.
Defined.
